(** * Next_Journey.c : the LoadRunner retail journey script

    A shallow embedding of
    [loadrunner-tests/Next_2025-11-27T10-30-00-000Z/Next_Journey.c]:
    the script's C globals, its two functions [Action] and
    [execute_journey_step], and the calls they make into the load
    generator's library ([lr_*], [web_*]) and into libc ([sprintf],
    [strcmp], [rand]).

    The library itself ([web_api.h], [lrun.h]) is third-party code: the
    embedding records every call the script makes to it, with the
    arguments as the script passes them, in a trace of events, and takes
    whatever the library hands back (virtual-user id, session id, the
    status of a request, the time a request takes) from a [world].
    Every library call returns to the script; a C buffer is the string
    it holds, the strings the script writes being taken to fit the
    buffers it declares. *)

From Stdlib Require Import ZArith List String Ascii Bool Lia DecimalString.
From Stdlib Require DecimalFacts DecimalPos Nnat.
Import ListNotations.

Local Open Scope string_scope.
Local Open Scope Z_scope.

(** ** C strings and libc *)

Module Libc.

(** The double quote, which a C literal writes as a backslash escape. *)
Definition dquote : ascii := ascii_of_nat 34.

(** [c_literal s] is the C string literal [s] in which every escaped
    double quote of the C source is written as an apostrophe (the
    script's literals contain no apostrophe of their own). *)
Fixpoint c_literal (s : string) : string :=
  match s with
  | EmptyString => EmptyString
  | String c rest =>
      String (if Ascii.eqb c "'" then dquote else c) (c_literal rest)
  end.

(** [%d] of a C [int]. *)
Definition string_of_int (n : Z) : string :=
  NilZero.string_of_int (Z.to_int n).

Inductive fmt_arg : Type :=
| ArgInt (n : Z)
| ArgStr (s : string).

(** [sprintf] restricted to the two directives the script uses, [%d]
    and [%s]; the result is the content written to the destination
    buffer.  A directive with no argument of its kind is undefined in
    C; here it prints nothing. *)
Fixpoint sprintf (fmt : string) (args : list fmt_arg) : string :=
  match fmt with
  | EmptyString => EmptyString
  | String "%" (String "d" rest) =>
      match args with
      | ArgInt n :: args' => string_of_int n ++ sprintf rest args'
      | _ :: args' => sprintf rest args'
      | [] => sprintf rest []
      end
  | String "%" (String "s" rest) =>
      match args with
      | ArgStr s :: args' => s ++ sprintf rest args'
      | _ :: args' => sprintf rest args'
      | [] => sprintf rest []
      end
  | String c rest => String c (sprintf rest args)
  end.

(** [strcmp]: zero exactly on equal strings, otherwise the sign of the
    first difference. *)
Definition strcmp (a b : string) : Z :=
  match String.compare a b with
  | Eq => 0
  | Lt => -1
  | Gt => 1
  end.

(** A 32-bit [int]: the value a product wraps to. *)
Definition int_max : Z := 2 ^ 31 - 1.
Definition int_wrap (z : Z) : Z := (z + 2 ^ 31) mod 2 ^ 32 - 2 ^ 31.
Definition int_mul (a b : Z) : Z := int_wrap (a * b).

(** C's [%] truncates towards zero. *)
Definition int_rem (a b : Z) : Z := Z.rem a b.

End Libc.
Import Libc.

(** ** The library's interface, as the script uses it *)

(** The two transaction statuses of [lrun.h] the script names. *)
Inductive lr_status : Type :=
| LR_PASS
| LR_FAIL.

(** One call into the library or into [rand].  [CustomRequest] keeps the
    attribute strings as the script writes them, placeholders in braces
    included, next to the content, at the call, of the C buffers those
    placeholders name. *)
Inductive event : Type :=
| StartTransaction (name : string)
| EndTransaction (name : string) (status : lr_status)
| AddHeader (name value : string)
| CustomRequest (name : string) (attrs : list string)
                (buffers : list (string * string))
| ThinkTime (t : Z)
| Rand (r : Z)
| ErrorMessage (msg : string).

(** What the environment answers during one run. *)
Record world : Type := mkWorld {
  vuser_id : Z;                      (* lr_get_vuser_id() *)
  session_id : string;               (* lr_get_session_id() *)
  rand_value : nat -> Z;             (* the n-th result of rand() *)
  request_status : nat -> lr_status; (* outcome of the n-th request *)
  request_latency : nat -> N         (* time the n-th request takes *)
}.

(** ** The script's globals *)

Record globals : Type := mkGlobals {
  LSN : string;
  LTN : string;
  TSN : string;
  dt_header : string;
  company_name : string;
  base_url : string;
  journey_steps : Z;
  think_time_ms : Z;
  error_simulation : Z
}.

Definition initial_globals : globals := {|
  LSN := "BizObs_Next_Retail_Journey";
  LTN := "Next_Performance_Test_20251127";
  TSN := "ProductDiscovery";
  dt_header := "";
  company_name := "Next";
  base_url := "http://localhost:8080";
  journey_steps := 6;
  think_time_ms := 3000;
  error_simulation := 1
|}.

Definition set_dt_header (v : string) (g : globals) : globals := {|
  LSN := LSN g;
  LTN := LTN g;
  TSN := TSN g;
  dt_header := v;
  company_name := company_name g;
  base_url := base_url g;
  journey_steps := journey_steps g;
  think_time_ms := think_time_ms g;
  error_simulation := error_simulation g
|}.

(** The state a run threads: the globals, how many results of [rand] and
    how many request outcomes have been consumed, and the time elapsed,
    in the unit of the argument of [lr_think_time]. *)
Record state : Type := mkState {
  st_globals : globals;
  rand_calls : nat;
  requests : nat;
  clock : Z
}.

Definition initial_state : state := {|
  st_globals := initial_globals;
  rand_calls := 0;
  requests := 0;
  clock := 0
|}.

(** ** The monad of the script: reader of the world, state, trace *)

Definition M (A : Type) : Type := world -> state -> A * state * list event.

Definition ret {A : Type} (a : A) : M A := fun _ s => (a, s, []).

Definition bind {A B : Type} (m : M A) (f : A -> M B) : M B :=
  fun w s =>
    let '(a, s1, t1) := m w s in
    let '(b, s2, t2) := f a w s1 in
    (b, s2, (t1 ++ t2)%list).

Declare Scope script_scope.
Delimit Scope script_scope with script.
Notation "x <- c ;; k" := (bind c (fun x => k))
  (at level 61, c at next level, right associativity) : script_scope.
Notation "c ;; k" := (bind c (fun _ => k))
  (at level 61, right associativity) : script_scope.
Local Open Scope script_scope.

Definition value_of {A : Type} (m : M A) (w : world) (s : state) : A :=
  fst (fst (m w s)).
Definition state_after {A : Type} (m : M A) (w : world) (s : state) : state :=
  snd (fst (m w s)).
Definition trace_of {A : Type} (m : M A) (w : world) (s : state) : list event :=
  snd (m w s).

Definition emit (e : event) : M unit := fun _ s => (tt, s, [e]).

Definition read_global {A : Type} (f : globals -> A) : M A :=
  fun _ s => (f (st_globals s), s, []).

Definition write_dt_header (v : string) : M unit :=
  fun _ s =>
    (tt,
     {| st_globals := set_dt_header v (st_globals s);
        rand_calls := rand_calls s;
        requests := requests s;
        clock := clock s |},
     []).

(** *** Library calls *)

Definition lr_start_transaction (name : string) : M unit :=
  emit (StartTransaction name).

Definition lr_end_transaction (name : string) (status : lr_status) : M unit :=
  emit (EndTransaction name status).

Definition lr_get_vuser_id : M Z := fun w s => (vuser_id w, s, []).

Definition lr_get_session_id : M string := fun w s => (session_id w, s, []).

Definition web_add_header (name value : string) : M unit :=
  emit (AddHeader name value).

(** The request returns the status the world gives it and takes the time
    the world gives it. *)
Definition web_custom_request (name : string) (attrs : list string)
    (buffers : list (string * string)) : M lr_status :=
  fun w s =>
    (request_status w (requests s),
     {| st_globals := st_globals s;
        rand_calls := rand_calls s;
        requests := S (requests s);
        clock := clock s + Z.of_N (request_latency w (requests s)) |},
     [CustomRequest name attrs buffers]).

Definition lr_think_time (t : Z) : M unit :=
  fun _ s =>
    (tt,
     {| st_globals := st_globals s;
        rand_calls := rand_calls s;
        requests := requests s;
        clock := clock s + t |},
     [ThinkTime t]).

Definition lr_error_message (fmt : string) (args : list fmt_arg) : M unit :=
  emit (ErrorMessage (sprintf fmt args)).

Definition rand : M Z :=
  fun w s =>
    let r := rand_value w (rand_calls s) in
    (r,
     {| st_globals := st_globals s;
        rand_calls := S (rand_calls s);
        requests := requests s;
        clock := clock s |},
     [Rand r]).

(** ** The script *)

(** [execute_journey_step] (Next_Journey.c, lines 112-148). *)
Definition execute_journey_step
    (step_name endpoint method body : string) (duration : Z) : M lr_status :=
  let transaction_name := sprintf "Step_%s" [ArgStr step_name] in
  lr_start_transaction transaction_name ;;
  vu <- lr_get_vuser_id ;;
  si <- lr_get_session_id ;;
  lsn <- read_global LSN ;;
  ltn <- read_global LTN ;;
  write_dt_header
    (sprintf "VU: %d; SI: %s; TSN: %s; LSN: %s; LTN: %s"
       [ArgInt vu; ArgStr si; ArgStr step_name; ArgStr lsn; ArgStr ltn]) ;;
  hdr <- read_global dt_header ;;
  web_add_header "X-dynaTrace" hdr ;;
  web_add_header "X-LoadRunner-Step" step_name ;;
  url <- read_global base_url ;;
  let full_url := sprintf "%s%s" [ArgStr url; ArgStr endpoint] in
  (if strcmp method "POST" =? 0
   then
     web_custom_request step_name
       ["URL={full_url}";
        "Method=POST";
        "Resource=0";
        "RecContentType=application/json";
        "Body={body}"]
       [("full_url", full_url); ("body", body)] ;;
     ret tt
   else ret tt) ;;
  lr_think_time (int_mul duration 1000) ;;
  sim <- read_global error_simulation ;;
  inject <- (if sim =? 0
             then ret false
             else r <- rand ;; ret (int_rem r 100 <? 5)) ;;
  if (inject : bool)
  then
    lr_end_transaction transaction_name LR_FAIL ;;
    lr_error_message "Simulated error in step: %s" [ArgStr step_name] ;;
    ret LR_FAIL
  else
    lr_end_transaction transaction_name LR_PASS ;;
    ret LR_PASS.

(** The bodies of the six steps (lines 50, 55, 60, 65, 70, 75). *)
Definition body_ProductDiscovery : string := c_literal
  "{'companyName':'Next','stepName':'ProductDiscovery','substeps':[{'substepName':'Browse Categories','duration':5},{'substepName':'Search Products','duration':8}]}".
Definition body_CartManagement : string := c_literal
  "{'companyName':'Next','stepName':'CartManagement','substeps':[{'substepName':'Add to Cart','duration':3},{'substepName':'Update Quantities','duration':5}]}".
Definition body_CheckoutProcess : string := c_literal
  "{'companyName':'Next','stepName':'CheckoutProcess','substeps':[{'substepName':'Payment Details','duration':12},{'substepName':'Delivery Options','duration':7}]}".
Definition body_OrderConfirmation : string := c_literal
  "{'companyName':'Next','stepName':'OrderConfirmation','substeps':[{'substepName':'Process Payment','duration':8},{'substepName':'Generate Receipt','duration':4}]}".
Definition body_FulfillmentProcessing : string := c_literal
  "{'companyName':'Next','stepName':'FulfillmentProcessing','substeps':[{'substepName':'Inventory Check','duration':6},{'substepName':'Prepare Order','duration':15}]}".
Definition body_DeliveryTracking : string := c_literal
  "{'companyName':'Next','stepName':'DeliveryTracking','substeps':[{'substepName':'Generate Tracking','duration':3},{'substepName':'Send Notifications','duration':5}]}".

(** The format of the summary body (lines 86-95). *)
Definition summary_format : string := c_literal
  ("{"
   ++ "'eventType': 'JOURNEY_COMPLETE',"
   ++ "'companyName': 'Next',"
   ++ "'testName': '%s',"
   ++ "'scriptName': '%s',"
   ++ "'vuserId': %d,"
   ++ "'sessionId': '%s',"
   ++ "'timestamp': '2025-11-27T10:30:00.000Z',"
   ++ "'totalSteps': 6"
   ++ "}").

(** [Action] (lines 30-110). *)
Definition Action : M Z :=
  lr_start_transaction "Journey_Initialization" ;;
  vu <- lr_get_vuser_id ;;
  si <- lr_get_session_id ;;
  lsn <- read_global LSN ;;
  ltn <- read_global LTN ;;
  write_dt_header
    (sprintf "VU: %d; SI: %s; TSN: Journey_Start; LSN: %s; LTN: %s"
       [ArgInt vu; ArgStr si; ArgStr lsn; ArgStr ltn]) ;;
  hdr <- read_global dt_header ;;
  web_add_header "X-dynaTrace" hdr ;;
  company <- read_global company_name ;;
  web_add_header "X-LoadRunner-Company" company ;;
  lr_end_transaction "Journey_Initialization" LR_PASS ;;
  execute_journey_step "ProductDiscovery" "/api/process" "POST"
    body_ProductDiscovery 13 ;;
  execute_journey_step "CartManagement" "/api/process" "POST"
    body_CartManagement 8 ;;
  execute_journey_step "CheckoutProcess" "/api/process" "POST"
    body_CheckoutProcess 19 ;;
  execute_journey_step "OrderConfirmation" "/api/process" "POST"
    body_OrderConfirmation 12 ;;
  execute_journey_step "FulfillmentProcessing" "/api/process" "POST"
    body_FulfillmentProcessing 21 ;;
  execute_journey_step "DeliveryTracking" "/api/process" "POST"
    body_DeliveryTracking 8 ;;
  lr_start_transaction "Journey_Complete" ;;
  vu <- lr_get_vuser_id ;;
  si <- lr_get_session_id ;;
  lsn <- read_global LSN ;;
  ltn <- read_global LTN ;;
  write_dt_header
    (sprintf "VU: %d; SI: %s; TSN: Journey_Complete; LSN: %s; LTN: %s"
       [ArgInt vu; ArgStr si; ArgStr lsn; ArgStr ltn]) ;;
  hdr <- read_global dt_header ;;
  web_add_header "X-dynaTrace" hdr ;;
  ltn <- read_global LTN ;;
  lsn <- read_global LSN ;;
  vu <- lr_get_vuser_id ;;
  si <- lr_get_session_id ;;
  let request_body :=
    sprintf summary_format [ArgStr ltn; ArgStr lsn; ArgInt vu; ArgStr si] in
  url <- read_global base_url ;;
  web_custom_request "Journey_Summary"
    ["URL={base_url}/api/journey-complete";
     "Method=POST";
     "Resource=0";
     "RecContentType=application/json";
     "Body={request_body}"]
    [("base_url", url); ("request_body", request_body)] ;;
  lr_end_transaction "Journey_Complete" LR_PASS ;;
  ret 0.

(** ** Views of a trace *)

Fixpoint started (t : list event) : list string :=
  match t with
  | [] => []
  | StartTransaction n :: t' => n :: started t'
  | _ :: t' => started t'
  end.

Fixpoint ended (t : list event) : list (string * lr_status) :=
  match t with
  | [] => []
  | EndTransaction n r :: t' => (n, r) :: ended t'
  | _ :: t' => ended t'
  end.

Fixpoint headers (t : list event) : list (string * string) :=
  match t with
  | [] => []
  | AddHeader n v :: t' => (n, v) :: headers t'
  | _ :: t' => headers t'
  end.

Fixpoint think_times (t : list event) : list Z :=
  match t with
  | [] => []
  | ThinkTime d :: t' => d :: think_times t'
  | _ :: t' => think_times t'
  end.

Definition is_request (e : event) : bool :=
  match e with
  | CustomRequest _ _ _ => true
  | _ => false
  end.

Definition sent (t : list event) : list event := filter is_request t.

(** The events by which a step settles its outcome: the draw of [rand],
    the end of the transaction and the error message. *)
Definition is_decision (e : event) : bool :=
  match e with
  | Rand _ | EndTransaction _ _ | ErrorMessage _ => true
  | _ => false
  end.

(** The step a transaction name [Step_<name>] stands for. *)
Definition step_of_transaction (tn : string) : option string :=
  if String.prefix "Step_" tn
  then Some (String.substring 5 (String.length tn - 5) tn)
  else None.

(** The results of the steps of a trace: the status each step
    transaction ended with, in the order of the trace. *)
Fixpoint step_results (t : list event) : list (string * lr_status) :=
  match t with
  | [] => []
  | EndTransaction tn r :: t' =>
      match step_of_transaction tn with
      | Some n => (n, r) :: step_results t'
      | None => step_results t'
      end
  | _ :: t' => step_results t'
  end.

(** ** What the script computes, in closed form *)

Definition step_transaction (step_name : string) : string :=
  "Step_" ++ step_name.

(** The value of the X-dynaTrace header (format of lines 40, 81, 120). *)
Definition dynatrace_value (vu : Z) (si tsn lsn ltn : string) : string :=
  "VU: " ++ string_of_int vu ++ "; SI: " ++ si ++ "; TSN: " ++ tsn
  ++ "; LSN: " ++ lsn ++ "; LTN: " ++ ltn.

Definition step_request (step_name full_url body : string) : event :=
  CustomRequest step_name
    ["URL={full_url}"; "Method=POST"; "Resource=0";
     "RecContentType=application/json"; "Body={body}"]
    [("full_url", full_url); ("body", body)].

(** The test of line 140 on one value of [rand]. *)
Definition fails_on (r : Z) : bool := int_rem r 100 <? 5.

(** Whether the step that starts in state [s] is failed by the error
    simulation: the condition of line 140. *)
Definition injects (w : world) (s : state) : bool :=
  negb (error_simulation (st_globals s) =? 0)
  && fails_on (rand_value w (rand_calls s)).

Definition outcome (w : world) (s : state) : lr_status :=
  if injects w s then LR_FAIL else LR_PASS.

(** The six calls of [Action] (lines 48-76), as a table. *)
Record step_definition : Type := mkStep {
  sd_name : string;
  sd_endpoint : string;
  sd_method : string;
  sd_body : string;
  sd_duration : Z
}.

Definition defined_steps : list step_definition :=
  [ mkStep "ProductDiscovery" "/api/process" "POST" body_ProductDiscovery 13;
    mkStep "CartManagement" "/api/process" "POST" body_CartManagement 8;
    mkStep "CheckoutProcess" "/api/process" "POST" body_CheckoutProcess 19;
    mkStep "OrderConfirmation" "/api/process" "POST" body_OrderConfirmation 12;
    mkStep "FulfillmentProcessing" "/api/process" "POST"
      body_FulfillmentProcessing 21;
    mkStep "DeliveryTracking" "/api/process" "POST" body_DeliveryTracking 8 ].

Definition run_step (d : step_definition) : M lr_status :=
  execute_journey_step (sd_name d) (sd_endpoint d) (sd_method d) (sd_body d)
    (sd_duration d).

(** The steps of a table one after the other, whatever each returns;
    the value is the list of what they returned. *)
Fixpoint run_steps (l : list step_definition) : M (list lr_status) :=
  match l with
  | [] => ret []
  | d :: l' =>
      r <- run_step d ;;
      rs <- run_steps l' ;;
      ret (r :: rs)
  end.

(** Lines 38-46 of [Action]. *)
Definition journey_initialization : M unit :=
  lr_start_transaction "Journey_Initialization" ;;
  vu <- lr_get_vuser_id ;;
  si <- lr_get_session_id ;;
  lsn <- read_global LSN ;;
  ltn <- read_global LTN ;;
  write_dt_header
    (sprintf "VU: %d; SI: %s; TSN: Journey_Start; LSN: %s; LTN: %s"
       [ArgInt vu; ArgStr si; ArgStr lsn; ArgStr ltn]) ;;
  hdr <- read_global dt_header ;;
  web_add_header "X-dynaTrace" hdr ;;
  company <- read_global company_name ;;
  web_add_header "X-LoadRunner-Company" company ;;
  lr_end_transaction "Journey_Initialization" LR_PASS.

(** Lines 79-109 of [Action]. *)
Definition journey_complete : M Z :=
  lr_start_transaction "Journey_Complete" ;;
  vu <- lr_get_vuser_id ;;
  si <- lr_get_session_id ;;
  lsn <- read_global LSN ;;
  ltn <- read_global LTN ;;
  write_dt_header
    (sprintf "VU: %d; SI: %s; TSN: Journey_Complete; LSN: %s; LTN: %s"
       [ArgInt vu; ArgStr si; ArgStr lsn; ArgStr ltn]) ;;
  hdr <- read_global dt_header ;;
  web_add_header "X-dynaTrace" hdr ;;
  ltn <- read_global LTN ;;
  lsn <- read_global LSN ;;
  vu <- lr_get_vuser_id ;;
  si <- lr_get_session_id ;;
  let request_body :=
    sprintf summary_format [ArgStr ltn; ArgStr lsn; ArgInt vu; ArgStr si] in
  url <- read_global base_url ;;
  web_custom_request "Journey_Summary"
    ["URL={base_url}/api/journey-complete";
     "Method=POST";
     "Resource=0";
     "RecContentType=application/json";
     "Body={request_body}"]
    [("base_url", url); ("request_body", request_body)] ;;
  lr_end_transaction "Journey_Complete" LR_PASS ;;
  ret 0.

(** *** The summary event *)

Definition json_string (s : string) : string :=
  String dquote s ++ String dquote "".

Definition json_member (m : string * string) : string :=
  json_string (fst m) ++ ": " ++ snd m.

(** An object the way the format of lines 86-95 lays it out: members
    separated by a comma, a space after each colon. *)
Definition json_object (members : list (string * string)) : string :=
  "{" ++ String.concat "," (map json_member members) ++ "}".

Definition summary_fields (vu : Z) (si lsn ltn : string)
  : list (string * string) :=
  [ ("eventType", json_string "JOURNEY_COMPLETE");
    ("companyName", json_string "Next");
    ("testName", json_string ltn);
    ("scriptName", json_string lsn);
    ("vuserId", string_of_int vu);
    ("sessionId", json_string si);
    ("timestamp", json_string "2025-11-27T10:30:00.000Z");
    ("totalSteps", string_of_int 6) ].

Definition summary_request (w : world) (g : globals) : event :=
  CustomRequest "Journey_Summary"
    ["URL={base_url}/api/journey-complete"; "Method=POST"; "Resource=0";
     "RecContentType=application/json"; "Body={request_body}"]
    [("base_url", base_url g);
     ("request_body",
      json_object (summary_fields (vuser_id w) (session_id w) (LSN g) (LTN g)))].

Definition is_summary (e : event) : bool :=
  match e with
  | CustomRequest _ attrs _ =>
      existsb (String.eqb "URL={base_url}/api/journey-complete") attrs
  | _ => false
  end.

(** The events of the last transaction of [Action]. *)
Definition journey_complete_events (w : world) (g : globals) : list event :=
  [ StartTransaction "Journey_Complete";
    AddHeader "X-dynaTrace"
      (dynatrace_value (vuser_id w) (session_id w) "Journey_Complete"
         (LSN g) (LTN g));
    summary_request w g;
    EndTransaction "Journey_Complete" LR_PASS ].

(** *** The error simulation *)

(** The hundred values [100 k], ..., [100 k + 99]. *)
Definition rand_block (k : nat) : list Z :=
  map (fun i => 100 * Z.of_nat k + Z.of_nat i) (seq 0 100).

(** *** The correlation header of the specification *)

(** The header of the specification's section 6, by its words:
    [X-Correlation: VU=<id>; Session=<id>; Step=<name>; Script=<LSN>;
    Test=<LTN>]. *)
Definition spec_correlation_name : string := "X-Correlation".

Definition spec_correlation_value (vu : Z) (si step lsn ltn : string)
  : string :=
  "VU=" ++ string_of_int vu ++ "; Session=" ++ si ++ "; Step=" ++ step
  ++ "; Script=" ++ lsn ++ "; Test=" ++ ltn.

(** *** Sample environments *)

Definition with_error_simulation (v : Z) (s : state) : state := {|
  st_globals := {|
    LSN := LSN (st_globals s);
    LTN := LTN (st_globals s);
    TSN := TSN (st_globals s);
    dt_header := dt_header (st_globals s);
    company_name := company_name (st_globals s);
    base_url := base_url (st_globals s);
    journey_steps := journey_steps (st_globals s);
    think_time_ms := think_time_ms (st_globals s);
    error_simulation := v |};
  rand_calls := rand_calls s;
  requests := requests s;
  clock := clock s
|}.

(** A virtual user whose every request fails in transport and whose
    [rand] never falls below 5 modulo 100. *)
Definition world_down : world := {|
  vuser_id := 7;
  session_id := "sess-1";
  rand_value := fun _ => 50;
  request_status := fun _ => LR_FAIL;
  request_latency := fun _ => 20%N
|}.

(** A virtual user whose every request fails in transport and whose
    [rand] always falls below 5 modulo 100. *)
Definition world_unlucky : world := {|
  vuser_id := 7;
  session_id := "sess-1";
  rand_value := fun n => 100 * Z.of_nat n + 3;
  request_status := fun _ => LR_FAIL;
  request_latency := fun _ => 20%N
|}.

(** The initial state with the error simulation switched off. *)
Definition state_without_simulation : state :=
  with_error_simulation 0 initial_state.

(** *** Two sentences of the specification, by their words *)

(** "Every step result reflects actual transport outcome only": the
    status the step returns is the status of its request. *)
Definition reflects_transport_outcome (w : world) (s : state)
    (step_name endpoint method body : string) (duration : Z) : Prop :=
  value_of (execute_journey_step step_name endpoint method body duration) w s
  = request_status w (requests s).

(** The step's requests carry the correlation header of section 6. *)
Definition carries_spec_correlation (w : world) (s : state)
    (step_name : string) (t : list event) : Prop :=
  In (spec_correlation_name,
      spec_correlation_value (vuser_id w) (session_id w) step_name
        (LSN (st_globals s)) (LTN (st_globals s)))
     (headers t).

(** *** One step, in closed form *)

(** The events of a step up to and including its wait. *)
Definition request_phase (w : world) (s : state)
    (step_name endpoint method body : string) (duration : Z) : list event :=
  ([ StartTransaction (step_transaction step_name);
     AddHeader "X-dynaTrace"
       (dynatrace_value (vuser_id w) (session_id w) step_name
          (LSN (st_globals s)) (LTN (st_globals s)));
     AddHeader "X-LoadRunner-Step" step_name ]
   ++ (if String.eqb method "POST"
       then [step_request step_name (base_url (st_globals s) ++ endpoint) body]
       else [])
   ++ [ThinkTime (int_mul duration 1000)])%list.

(** The events of a step after its wait. *)
Definition decision_phase (w : world) (s : state) (step_name : string)
  : list event :=
  ((if error_simulation (st_globals s) =? 0
    then []
    else [Rand (rand_value w (rand_calls s))])
   ++ (if injects w s
       then [ EndTransaction (step_transaction step_name) LR_FAIL;
              ErrorMessage ("Simulated error in step: " ++ step_name) ]
       else [ EndTransaction (step_transaction step_name) LR_PASS ]))%list.

(** The state a step leaves. *)
Definition step_state (w : world) (s : state)
    (step_name method : string) (duration : Z) : state := {|
  st_globals :=
    set_dt_header
      (dynatrace_value (vuser_id w) (session_id w) step_name
         (LSN (st_globals s)) (LTN (st_globals s)))
      (st_globals s);
  rand_calls :=
    if error_simulation (st_globals s) =? 0
    then rand_calls s else S (rand_calls s);
  requests :=
    if String.eqb method "POST" then S (requests s) else requests s;
  clock :=
    (if String.eqb method "POST"
     then clock s + Z.of_N (request_latency w (requests s))
     else clock s)
    + int_mul duration 1000
|}.

(** *** The first and the last transaction, in closed form *)

Definition with_dt_header (v : string) (s : state) : state := {|
  st_globals := set_dt_header v (st_globals s);
  rand_calls := rand_calls s;
  requests := requests s;
  clock := clock s
|}.

Definition journey_initialization_events (w : world) (g : globals)
  : list event :=
  [ StartTransaction "Journey_Initialization";
    AddHeader "X-dynaTrace"
      (dynatrace_value (vuser_id w) (session_id w) "Journey_Start"
         (LSN g) (LTN g));
    AddHeader "X-LoadRunner-Company" (company_name g);
    EndTransaction "Journey_Initialization" LR_PASS ].

Definition journey_initialization_state (w : world) (s : state) : state :=
  with_dt_header
    (dynatrace_value (vuser_id w) (session_id w) "Journey_Start"
       (LSN (st_globals s)) (LTN (st_globals s)))
    s.

Definition journey_complete_state (w : world) (s : state) : state := {|
  st_globals :=
    set_dt_header
      (dynatrace_value (vuser_id w) (session_id w) "Journey_Complete"
         (LSN (st_globals s)) (LTN (st_globals s)))
      (st_globals s);
  rand_calls := rand_calls s;
  requests := S (requests s);
  clock := clock s + Z.of_N (request_latency w (requests s))
|}.

(** A step writes [dt_header] and nothing else of the globals. *)
Definition same_configuration (g g' : globals) : Prop :=
  LSN g' = LSN g /\ LTN g' = LTN g /\ company_name g' = company_name g
  /\ base_url g' = base_url g /\ error_simulation g' = error_simulation g.

(** The names of the steps, in the order [Action] runs them. *)
Definition step_names : list string :=
  [ "ProductDiscovery"; "CartManagement"; "CheckoutProcess";
    "OrderConfirmation"; "FulfillmentProcessing"; "DeliveryTracking" ].

(** *** Time *)

(** The durations of a table of steps, added up, in seconds. *)
Definition total_duration (l : list step_definition) : Z :=
  fold_right (fun d acc => sd_duration d + acc) 0 l.

(** The time the requests of a table of steps take, the first of them
    being the [k]-th request of the run. *)
Fixpoint steps_latency (w : world) (k : nat) (l : list step_definition) : Z :=
  match l with
  | [] => 0
  | d :: l' =>
      if String.eqb (sd_method d) "POST"
      then Z.of_N (request_latency w k) + steps_latency w (S k) l'
      else steps_latency w k l'
  end.

(** A duration whose thousandfold is an [int]. *)
Definition fits_think_time (d : step_definition) : Prop :=
  0 <= sd_duration d /\ sd_duration d * 1000 <= int_max.

(** Two steps that wait one and two seconds. *)
Definition steps_A_B : list step_definition :=
  [ mkStep "A" "/a" "POST" "{}" 1; mkStep "B" "/b" "POST" "{}" 2 ].

(** ** Further views of a run *)

Fixpoint errors (t : list event) : list string :=
  match t with
  | [] => []
  | ErrorMessage msg :: t' => msg :: errors t'
  | _ :: t' => errors t'
  end.

Definition is_fail (r : lr_status) : bool :=
  match r with
  | LR_FAIL => true
  | LR_PASS => false
  end.

(** The message of line 142 for a step. *)
Definition simulated_error_message (step_name : string) : string :=
  "Simulated error in step: " ++ step_name.

(** The discipline of the transactions of a trace, [open] being the
    transaction open at its start: a transaction is started only when
    none is open and ended, under its own name, only when it is the one
    open; headers, requests and waits occur inside a transaction, error
    messages outside; at the end none is open. *)
Fixpoint well_bracketed (open : option string) (t : list event) : bool :=
  match t with
  | [] =>
      match open with
      | None => true
      | Some _ => false
      end
  | StartTransaction n :: t' =>
      match open with
      | None => well_bracketed (Some n) t'
      | Some _ => false
      end
  | EndTransaction n _ :: t' =>
      match open with
      | Some n' => String.eqb n n' && well_bracketed None t'
      | None => false
      end
  | ErrorMessage _ :: t' =>
      match open with
      | None => well_bracketed None t'
      | Some _ => false
      end
  | Rand _ :: t' => well_bracketed open t'
  | _ :: t' =>
      match open with
      | Some _ => well_bracketed open t'
      | None => false
      end
  end.

(** The status the simulation gives on one value of [rand]. *)
Definition status_of_draw (r : Z) : lr_status :=
  if fails_on r then LR_FAIL else LR_PASS.

(** The statuses [n] consecutive draws give, from the [k]-th on. *)
Definition draw_results (w : world) (k n : nat) : list lr_status :=
  map (fun i => status_of_draw (rand_value w (k + i))) (seq 0 n).

(** What a run reads: the virtual-user id, the session id, the five
    globals of [same_configuration] and the values of [rand] from the
    current position on. *)
Definition same_inputs (w w' : world) (s s' : state) : Prop :=
  vuser_id w' = vuser_id w
  /\ session_id w' = session_id w
  /\ same_configuration (st_globals s) (st_globals s')
  /\ forall i : nat,
       rand_value w' (rand_calls s' + i) = rand_value w (rand_calls s + i).

(** The time the [n] requests from the [k]-th on take. *)
Fixpoint requests_latency (w : world) (k n : nat) : Z :=
  match n with
  | O => 0
  | S n' => Z.of_N (request_latency w k) + requests_latency w (S k) n'
  end.

(** The headers one step registers. *)
Definition step_headers (w : world) (g : globals) (step_name : string)
  : list (string * string) :=
  [ ("X-dynaTrace",
     dynatrace_value (vuser_id w) (session_id w) step_name (LSN g) (LTN g));
    ("X-LoadRunner-Step", step_name) ].

(** *** The buffers of the script *)

(** A string fits an array of [n] bytes when it leaves room for the
    terminating zero. *)
Definition fits (n : nat) (s : string) : Prop := (String.length s < n)%nat.

(** The arrays of lines 18-23, 32-34 and 114-115. *)
Definition size_LSN : nat := 256.
Definition size_LTN : nat := 256.
Definition size_dt_header : nat := 1024.
Definition size_company_name : nat := 128.
Definition size_base_url : nat := 256.
Definition size_request_body : nat := 2048.
Definition size_transaction_name : nat := 256.
Definition size_full_url : nat := 512.

(** The globals the script reads hold strings that fit their arrays. *)
Definition globals_fit (g : globals) : Prop :=
  fits size_LSN (LSN g) /\ fits size_LTN (LTN g)
  /\ fits size_company_name (company_name g)
  /\ fits size_base_url (base_url g).

Definition int_min : Z := - 2 ^ 31.

Definition is_int (n : Z) : Prop := int_min <= n <= int_max.

(** The buffers a request names, with their contents. *)
Definition request_buffers (e : event) : list (string * string) :=
  match e with
  | CustomRequest _ _ buffers => buffers
  | _ => []
  end.

(** The contents of the buffer [name] at the requests of a trace. *)
Definition buffer_contents (name : string) (t : list event) : list string :=
  map snd
    (filter (fun b => String.eqb (fst b) name)
       (flat_map request_buffers (sent t))).

(** The digits of a decimal number after the first. *)
Definition uint_tail (d : Decimal.uint) : Decimal.uint :=
  match d with
  | Decimal.Nil => Decimal.Nil
  | Decimal.D0 x | Decimal.D1 x | Decimal.D2 x | Decimal.D3 x
  | Decimal.D4 x | Decimal.D5 x | Decimal.D6 x | Decimal.D7 x
  | Decimal.D8 x | Decimal.D9 x => x
  end.

(** The values registered for the header [name] in a trace. *)
Definition header_values (name : string) (t : list event) : list string :=
  map snd (filter (fun h => String.eqb (fst h) name) (headers t)).

(** A world whose virtual-user id is the least [int] and whose session
    id has 450 characters. *)
Definition world_long_session : world := {|
  vuser_id := int_min;
  session_id :=
    String.concat "" (repeat "0123456789abcdefghijklmnopqrstuvwxyz-01234567" 10);
  rand_value := fun _ => 3;
  request_status := fun _ => LR_PASS;
  request_latency := fun _ => 0%N
|}.

(** The world of [world_down] with requests that succeed and take
    another time. *)
Definition world_up : world := {|
  vuser_id := 7;
  session_id := "sess-1";
  rand_value := fun _ => 50;
  request_status := fun _ => LR_PASS;
  request_latency := fun _ => 5%N
|}.

(** A state later in the life of a virtual user: what the run reads of
    the globals is as at the start, the rest is not. *)
Definition state_later : state := {|
  st_globals := {|
    LSN := "BizObs_Next_Retail_Journey";
    LTN := "Next_Performance_Test_20251127";
    TSN := "DeliveryTracking";
    dt_header := "stale";
    company_name := "Next";
    base_url := "http://localhost:8080";
    journey_steps := 0;
    think_time_ms := 0;
    error_simulation := 1 |};
  rand_calls := 4;
  requests := 9;
  clock := 1000
|}.

(** The world in which [rand] has already been called [k] times. *)
Definition shift_rand (k : nat) (w : world) : world := {|
  vuser_id := vuser_id w;
  session_id := session_id w;
  rand_value := fun i => rand_value w (k + i);
  request_status := request_status w;
  request_latency := request_latency w
|}.

(** * Properties *)

(** ** Strings *)

Lemma append_nil_r (a : string) : a ++ "" = a.
Proof. induction a as [|c a IH]; simpl; [reflexivity | now rewrite IH]. Qed.

Lemma append_assoc (a b c : string) : (a ++ b) ++ c = a ++ (b ++ c).
Proof. induction a as [|x a IH]; simpl; [reflexivity | now rewrite IH]. Qed.

Lemma append_inj_l (p a b : string) : p ++ a = p ++ b -> a = b.
Proof.
  induction p as [|c p IH]; simpl; intros H; [exact H|].
  injection H as H. auto.
Qed.

Lemma strcmp_zero (a b : string) : strcmp a b = 0 <-> a = b.
Proof.
  unfold strcmp. destruct (String.compare a b) eqn:E.
  - apply String.compare_eq_iff in E. tauto.
  - split; [discriminate|]. intros ->.
    pose proof (String.compare_antisym b b) as H.
    rewrite E in H. discriminate.
  - split; [discriminate|]. intros ->.
    pose proof (String.compare_antisym b b) as H.
    rewrite E in H. discriminate.
Qed.

Lemma strcmp_POST (m : string) : (strcmp m "POST" =? 0) = String.eqb m "POST".
Proof.
  destruct (String.eqb_spec m "POST") as [->|N].
  - reflexivity.
  - apply Z.eqb_neq. intros H. apply strcmp_zero in H. contradiction.
Qed.

Lemma sprintf_transaction (n : string) :
  sprintf "Step_%s" [ArgStr n] = step_transaction n.
Proof. unfold step_transaction. simpl. now rewrite append_nil_r. Qed.

Lemma sprintf_step_header (vu : Z) (si n lsn ltn : string) :
  sprintf "VU: %d; SI: %s; TSN: %s; LSN: %s; LTN: %s"
    [ArgInt vu; ArgStr si; ArgStr n; ArgStr lsn; ArgStr ltn]
  = dynatrace_value vu si n lsn ltn.
Proof. unfold dynatrace_value. simpl. now rewrite append_nil_r. Qed.

Lemma sprintf_full_url (url endpoint : string) :
  sprintf "%s%s" [ArgStr url; ArgStr endpoint] = url ++ endpoint.
Proof. simpl. now rewrite append_nil_r. Qed.

Lemma sprintf_error_message (n : string) :
  sprintf "Simulated error in step: %s" [ArgStr n]
  = "Simulated error in step: " ++ n.
Proof. simpl. now rewrite append_nil_r. Qed.

(** ** The monad *)

Lemma bind_run {A B : Type} (m : M A) (f : A -> M B) (w : world) (s : state) :
  bind m f w s
  = (value_of (f (value_of m w s)) w (state_after m w s),
     state_after (f (value_of m w s)) w (state_after m w s),
     (trace_of m w s
      ++ trace_of (f (value_of m w s)) w (state_after m w s))%list).
Proof.
  unfold bind, value_of, state_after, trace_of.
  destruct (m w s) as [[a s1] t1]. simpl.
  destruct (f a w s1) as [[b s2] t2]. reflexivity.
Qed.

Lemma trace_of_bind {A B : Type} (m : M A) (f : A -> M B) w s :
  trace_of (bind m f) w s
  = (trace_of m w s
     ++ trace_of (f (value_of m w s)) w (state_after m w s))%list.
Proof. unfold trace_of at 1. now rewrite bind_run. Qed.

Lemma state_after_bind {A B : Type} (m : M A) (f : A -> M B) w s :
  state_after (bind m f) w s
  = state_after (f (value_of m w s)) w (state_after m w s).
Proof. unfold state_after at 1. now rewrite bind_run. Qed.

Lemma value_of_bind {A B : Type} (m : M A) (f : A -> M B) w s :
  value_of (bind m f) w s
  = value_of (f (value_of m w s)) w (state_after m w s).
Proof. unfold value_of at 1. now rewrite bind_run. Qed.

Lemma run_eta {A : Type} (m : M A) w s :
  m w s = (value_of m w s, state_after m w s, trace_of m w s).
Proof.
  unfold value_of, state_after, trace_of.
  now destruct (m w s) as [[a s1] t1].
Qed.

(** ** One step *)

Lemma execute_journey_step_run (w : world) (s : state)
    (n e m b : string) (d : Z) :
  execute_journey_step n e m b d w s
  = (outcome w s,
     step_state w s n m d,
     (request_phase w s n e m b d ++ decision_phase w s n)%list).
Proof.
  unfold execute_journey_step, request_phase, decision_phase, step_state,
    outcome, injects, fails_on.
  rewrite sprintf_transaction.
  unfold bind, lr_start_transaction, lr_end_transaction, lr_get_vuser_id,
    lr_get_session_id, read_global, write_dt_header, web_add_header,
    web_custom_request, lr_think_time, lr_error_message, rand, emit, ret.
  cbv beta iota zeta.
  rewrite sprintf_step_header, sprintf_full_url, sprintf_error_message,
    strcmp_POST.
  destruct (String.eqb m "POST");
    cbn [st_globals rand_calls requests clock set_dt_header dt_header
         error_simulation LSN LTN base_url];
    destruct (error_simulation (st_globals s) =? 0);
    cbn [st_globals rand_calls requests clock set_dt_header dt_header
         error_simulation LSN LTN base_url negb andb app];
    try destruct (int_rem (rand_value w (rand_calls s)) 100 <? 5);
    reflexivity.
Qed.

Lemma value_of_step w s n e m b d :
  value_of (execute_journey_step n e m b d) w s = outcome w s.
Proof. unfold value_of. now rewrite execute_journey_step_run. Qed.

Lemma state_after_step w s n e m b d :
  state_after (execute_journey_step n e m b d) w s = step_state w s n m d.
Proof. unfold state_after. now rewrite execute_journey_step_run. Qed.

Lemma trace_of_step w s n e m b d :
  trace_of (execute_journey_step n e m b d) w s
  = (request_phase w s n e m b d ++ decision_phase w s n)%list.
Proof. unfold trace_of. now rewrite execute_journey_step_run. Qed.

(** ** Views of a trace, over concatenation *)

Lemma started_app (t u : list event) :
  started (t ++ u) = (started t ++ started u)%list.
Proof.
  induction t as [|e t IH]; [reflexivity|].
  destruct e; simpl; now rewrite IH.
Qed.

Lemma ended_app (t u : list event) :
  ended (t ++ u) = (ended t ++ ended u)%list.
Proof.
  induction t as [|e t IH]; [reflexivity|].
  destruct e; simpl; now rewrite IH.
Qed.

Lemma headers_app (t u : list event) :
  headers (t ++ u) = (headers t ++ headers u)%list.
Proof.
  induction t as [|e t IH]; [reflexivity|].
  destruct e; simpl; now rewrite IH.
Qed.

Lemma think_times_app (t u : list event) :
  think_times (t ++ u) = (think_times t ++ think_times u)%list.
Proof.
  induction t as [|e t IH]; [reflexivity|].
  destruct e; simpl; now rewrite IH.
Qed.

Lemma step_results_app (t u : list event) :
  step_results (t ++ u) = (step_results t ++ step_results u)%list.
Proof.
  induction t as [|e t IH]; [reflexivity|].
  destruct e; simpl; try now rewrite IH.
  destruct (step_of_transaction name); simpl; now rewrite IH.
Qed.

Lemma sent_app (t u : list event) : sent (t ++ u) = (sent t ++ sent u)%list.
Proof. apply filter_app. Qed.

(** ** Transaction names *)

Lemma substring_all (a : string) : String.substring 0 (String.length a) a = a.
Proof. induction a as [|c a IH]; simpl; [reflexivity | now rewrite IH]. Qed.

Lemma step_of_step_transaction (n : string) :
  step_of_transaction (step_transaction n) = Some n.
Proof.
  unfold step_of_transaction, step_transaction. simpl.
  rewrite Nat.sub_0_r, substring_all.
  now destruct n.
Qed.

Lemma step_transaction_inj (n n' : string) :
  step_transaction n = step_transaction n' -> n = n'.
Proof. apply append_inj_l. Qed.

(** ** The first and the last transaction *)

Lemma summary_body (vu : Z) (si lsn ltn : string) :
  sprintf summary_format [ArgStr ltn; ArgStr lsn; ArgInt vu; ArgStr si]
  = json_object (summary_fields vu si lsn ltn).
Proof.
  unfold json_object, summary_fields, json_member, json_string.
  cbn.
  repeat (rewrite !append_assoc; cbn).
  reflexivity.
Qed.

Lemma sprintf_journey_start (vu : Z) (si lsn ltn : string) :
  sprintf "VU: %d; SI: %s; TSN: Journey_Start; LSN: %s; LTN: %s"
    [ArgInt vu; ArgStr si; ArgStr lsn; ArgStr ltn]
  = dynatrace_value vu si "Journey_Start" lsn ltn.
Proof. unfold dynatrace_value. simpl. now rewrite append_nil_r. Qed.

Lemma sprintf_journey_complete (vu : Z) (si lsn ltn : string) :
  sprintf "VU: %d; SI: %s; TSN: Journey_Complete; LSN: %s; LTN: %s"
    [ArgInt vu; ArgStr si; ArgStr lsn; ArgStr ltn]
  = dynatrace_value vu si "Journey_Complete" lsn ltn.
Proof. unfold dynatrace_value. simpl. now rewrite append_nil_r. Qed.

Lemma journey_initialization_run (w : world) (s : state) :
  journey_initialization w s
  = (tt, journey_initialization_state w s,
     journey_initialization_events w (st_globals s)).
Proof.
  unfold journey_initialization, bind, lr_start_transaction,
    lr_end_transaction, lr_get_vuser_id, lr_get_session_id, read_global,
    write_dt_header, web_add_header, emit.
  cbv beta iota zeta.
  rewrite sprintf_journey_start.
  reflexivity.
Qed.

Lemma journey_complete_run (w : world) (s : state) :
  journey_complete w s
  = (0, journey_complete_state w s, journey_complete_events w (st_globals s)).
Proof.
  unfold journey_complete, bind, lr_start_transaction, lr_end_transaction,
    lr_get_vuser_id, lr_get_session_id, read_global, write_dt_header,
    web_add_header, web_custom_request, emit, ret.
  cbv beta iota zeta.
  rewrite sprintf_journey_complete, summary_body.
  reflexivity.
Qed.

(** ** [Action] is its three phases *)

Lemma bind_assoc {A B C : Type} (m : M A) (f : A -> M B) (g : B -> M C) w s :
  bind (bind m f) g w s = bind m (fun a => bind (f a) g) w s.
Proof.
  unfold bind.
  destruct (m w s) as [[a s1] t1].
  destruct (f a w s1) as [[b s2] t2].
  destruct (g b w s2) as [[c s3] t3].
  now rewrite app_assoc.
Qed.

Lemma bind_ext {A B : Type} (m : M A) (f f' : A -> M B) w s :
  (forall a w' s', f a w' s' = f' a w' s') -> bind m f w s = bind m f' w s.
Proof.
  intros H. unfold bind.
  destruct (m w s) as [[a s1] t1]. now rewrite H.
Qed.

Lemma bind_ret_l {A B : Type} (a : A) (f : A -> M B) w s :
  bind (ret a) f w s = f a w s.
Proof. unfold bind, ret. now destruct (f a w s) as [[b s1] t1]. Qed.

Ltac phase_step :=
  cbv beta;
  first [ rewrite bind_ret_l
        | rewrite bind_assoc
        | apply bind_ext; intros ? ? ? ].

Lemma Action_phases (w : world) (s : state) :
  Action w s
  = (journey_initialization ;; run_steps defined_steps ;; journey_complete)
      w s.
Proof.
  unfold Action, journey_initialization, journey_complete, defined_steps.
  cbn [run_steps]. unfold run_step.
  cbn [sd_name sd_endpoint sd_method sd_body sd_duration].
  repeat phase_step.
  reflexivity.
Qed.

(** ** Views of one step *)

Arguments step_transaction : simpl never.

Ltac step_cases w s m :=
  unfold request_phase, decision_phase, outcome, injects, fails_on;
  destruct (String.eqb m "POST");
  destruct (error_simulation (st_globals s) =? 0);
  cbn [negb andb];
  try destruct (int_rem (rand_value w (rand_calls s)) 100 <? 5);
  cbn [app started ended headers think_times step_results sent filter
       is_request step_request];
  rewrite ?step_of_step_transaction;
  try reflexivity.

Lemma started_step w s n e m b d :
  started (request_phase w s n e m b d ++ decision_phase w s n)
  = [step_transaction n].
Proof. step_cases w s m. Qed.

Lemma ended_step w s n e m b d :
  ended (request_phase w s n e m b d ++ decision_phase w s n)
  = [(step_transaction n, outcome w s)].
Proof. step_cases w s m. Qed.

Lemma step_results_step w s n e m b d :
  step_results (request_phase w s n e m b d ++ decision_phase w s n)
  = [(n, outcome w s)].
Proof. step_cases w s m. Qed.

Lemma think_times_step w s n e m b d :
  think_times (request_phase w s n e m b d ++ decision_phase w s n)
  = [int_mul d 1000].
Proof. step_cases w s m. Qed.

Lemma sent_step w s n e m b d :
  sent (request_phase w s n e m b d ++ decision_phase w s n)
  = if String.eqb m "POST"
    then [step_request n (base_url (st_globals s) ++ e) b]
    else [].
Proof. step_cases w s m. Qed.

Lemma no_summary_in_step w s n e m b d :
  filter is_summary (request_phase w s n e m b d ++ decision_phase w s n) = [].
Proof. step_cases w s m. Qed.

(** ** A table of steps *)

Lemma run_steps_cons (d : step_definition) (l : list step_definition) w s :
  run_steps (d :: l) w s
  = (outcome w s
       :: value_of (run_steps l) w
            (step_state w s (sd_name d) (sd_method d) (sd_duration d)),
     state_after (run_steps l) w
       (step_state w s (sd_name d) (sd_method d) (sd_duration d)),
     ((request_phase w s (sd_name d) (sd_endpoint d) (sd_method d)
         (sd_body d) (sd_duration d)
       ++ decision_phase w s (sd_name d))
      ++ trace_of (run_steps l) w
           (step_state w s (sd_name d) (sd_method d) (sd_duration d)))%list).
Proof.
  cbn [run_steps]. unfold run_step, bind at 1.
  rewrite execute_journey_step_run.
  unfold bind, ret.
  rewrite (run_eta (run_steps l)).
  now rewrite app_nil_r.
Qed.

Lemma value_of_run_steps_cons d l w s :
  value_of (run_steps (d :: l)) w s
  = outcome w s
      :: value_of (run_steps l) w
           (step_state w s (sd_name d) (sd_method d) (sd_duration d)).
Proof. unfold value_of at 1. now rewrite run_steps_cons. Qed.

Lemma state_after_run_steps_cons d l w s :
  state_after (run_steps (d :: l)) w s
  = state_after (run_steps l) w
      (step_state w s (sd_name d) (sd_method d) (sd_duration d)).
Proof. unfold state_after at 1. now rewrite run_steps_cons. Qed.

Lemma trace_of_run_steps_cons d l w s :
  trace_of (run_steps (d :: l)) w s
  = ((request_phase w s (sd_name d) (sd_endpoint d) (sd_method d)
        (sd_body d) (sd_duration d)
      ++ decision_phase w s (sd_name d))
     ++ trace_of (run_steps l) w
          (step_state w s (sd_name d) (sd_method d) (sd_duration d)))%list.
Proof. unfold trace_of at 1. now rewrite run_steps_cons. Qed.

Lemma run_steps_length l w s :
  List.length (value_of (run_steps l) w s) = List.length l.
Proof.
  revert s. induction l as [|d l IH]; intros s; [reflexivity|].
  rewrite value_of_run_steps_cons. simpl. now rewrite IH.
Qed.

Lemma run_steps_started l w s :
  started (trace_of (run_steps l) w s)
  = map (fun d => step_transaction (sd_name d)) l.
Proof.
  revert s. induction l as [|d l IH]; intros s; [reflexivity|].
  rewrite trace_of_run_steps_cons, started_app, started_step, IH.
  reflexivity.
Qed.

Lemma run_steps_ended l w s :
  ended (trace_of (run_steps l) w s)
  = combine (map (fun d => step_transaction (sd_name d)) l)
      (value_of (run_steps l) w s).
Proof.
  revert s. induction l as [|d l IH]; intros s; [reflexivity|].
  rewrite trace_of_run_steps_cons, value_of_run_steps_cons, ended_app,
    ended_step, IH.
  reflexivity.
Qed.

Lemma run_steps_results l w s :
  step_results (trace_of (run_steps l) w s)
  = combine (map sd_name l) (value_of (run_steps l) w s).
Proof.
  revert s. induction l as [|d l IH]; intros s; [reflexivity|].
  rewrite trace_of_run_steps_cons, value_of_run_steps_cons, step_results_app,
    step_results_step, IH.
  reflexivity.
Qed.

Lemma run_steps_think_times l w s :
  think_times (trace_of (run_steps l) w s)
  = map (fun d => int_mul (sd_duration d) 1000) l.
Proof.
  revert s. induction l as [|d l IH]; intros s; [reflexivity|].
  rewrite trace_of_run_steps_cons, think_times_app, think_times_step, IH.
  reflexivity.
Qed.

Lemma run_steps_no_summary l w s :
  filter is_summary (trace_of (run_steps l) w s) = [].
Proof.
  revert s. induction l as [|d l IH]; intros s; [reflexivity|].
  rewrite trace_of_run_steps_cons, filter_app, no_summary_in_step, IH.
  reflexivity.
Qed.

Lemma run_steps_configuration l w s :
  same_configuration (st_globals s)
    (st_globals (state_after (run_steps l) w s)).
Proof.
  revert s. induction l as [|d l IH]; intros s.
  - repeat split.
  - rewrite state_after_run_steps_cons.
    destruct (IH (step_state w s (sd_name d) (sd_method d) (sd_duration d)))
      as (H1 & H2 & H3 & H4 & H5).
    repeat split; simpl in *; assumption.
Qed.

(** ** The whole journey *)

Lemma journey_complete_events_configuration (w : world) (g g' : globals) :
  same_configuration g g' ->
  journey_complete_events w g' = journey_complete_events w g.
Proof.
  intros (H1 & H2 & _ & H4 & _).
  unfold journey_complete_events, summary_request.
  now rewrite H1, H2, H4.
Qed.

Lemma Action_run (w : world) (s : state) :
  Action w s
  = (0,
     journey_complete_state w
       (state_after (run_steps defined_steps) w
          (journey_initialization_state w s)),
     (journey_initialization_events w (st_globals s)
      ++ trace_of (run_steps defined_steps) w
           (journey_initialization_state w s)
      ++ journey_complete_events w (st_globals s))%list).
Proof.
  rewrite Action_phases.
  unfold bind at 1. rewrite journey_initialization_run.
  unfold bind at 1.
  rewrite (run_eta (run_steps defined_steps)), journey_complete_run.
  rewrite (journey_complete_events_configuration w
             (st_globals (journey_initialization_state w s))).
  - reflexivity.
  - apply run_steps_configuration.
Qed.

Lemma trace_of_Action (w : world) (s : state) :
  trace_of Action w s
  = (journey_initialization_events w (st_globals s)
     ++ trace_of (run_steps defined_steps) w
          (journey_initialization_state w s)
     ++ journey_complete_events w (st_globals s))%list.
Proof. unfold trace_of at 1. now rewrite Action_run. Qed.

Lemma value_of_Action (w : world) (s : state) : value_of Action w s = 0.
Proof. unfold value_of. now rewrite Action_run. Qed.

Lemma started_Action (w : world) (s : state) :
  started (trace_of Action w s)
  = ("Journey_Initialization" :: map step_transaction step_names
     ++ ["Journey_Complete"])%list.
Proof.
  rewrite trace_of_Action, !started_app, run_steps_started.
  reflexivity.
Qed.

Lemma step_results_Action (w : world) (s : state) :
  step_results (trace_of Action w s)
  = combine step_names
      (value_of (run_steps defined_steps) w (journey_initialization_state w s)).
Proof.
  rewrite trace_of_Action, !step_results_app, run_steps_results.
  cbn [journey_initialization_events journey_complete_events step_results
       summary_request app].
  replace (step_of_transaction "Journey_Initialization") with (@None string)
    by reflexivity.
  replace (step_of_transaction "Journey_Complete") with (@None string)
    by reflexivity.
  now rewrite app_nil_r.
Qed.

(** C1. Whatever the environment answers and whatever state the run
    starts in, [Action] runs the six defined steps, as many as
    [journey_steps] says, in the order ProductDiscovery, CartManagement,
    CheckoutProcess, OrderConfirmation, FulfillmentProcessing,
    DeliveryTracking: the step transactions are started in that order,
    and the trace holds exactly one result for each, in that order. *)
Theorem journey_runs_defined_steps_in_order (w : world) (s : state) :
  exists results : list lr_status,
    List.length results = 6%nat
    /\ Z.of_nat (List.length results) = journey_steps initial_globals
    /\ step_results (trace_of Action w s)
       = combine
           [ "ProductDiscovery"; "CartManagement"; "CheckoutProcess";
             "OrderConfirmation"; "FulfillmentProcessing";
             "DeliveryTracking" ]
           results
    /\ started (trace_of Action w s)
       = [ "Journey_Initialization";
           "Step_ProductDiscovery"; "Step_CartManagement";
           "Step_CheckoutProcess"; "Step_OrderConfirmation";
           "Step_FulfillmentProcessing"; "Step_DeliveryTracking";
           "Journey_Complete" ].
Proof.
  exists (value_of (run_steps defined_steps) w
            (journey_initialization_state w s)).
  assert (L : List.length
                (value_of (run_steps defined_steps) w
                   (journey_initialization_state w s)) = 6%nat)
    by now rewrite run_steps_length.
  repeat split.
  - exact L.
  - now rewrite L.
  - apply step_results_Action.
  - apply started_Action.
Qed.

(** C8. In one run every transaction name is used once: the six step
    transactions [Step_<name>] differ from each other and from
    [Journey_Initialization] and [Journey_Complete]; prefixing [Step_]
    keeps distinct step names distinct and never yields one of the two
    journey-level names. *)
Theorem transaction_names_unique (w : world) (s : state) :
  NoDup (started (trace_of Action w s))
  /\ started (trace_of Action w s)
     = ("Journey_Initialization" :: map step_transaction step_names
        ++ ["Journey_Complete"])%list
  /\ NoDup step_names
  /\ (forall n n' : string,
        sprintf "Step_%s" [ArgStr n] = sprintf "Step_%s" [ArgStr n'] ->
        n = n')
  /\ (forall n : string,
        sprintf "Step_%s" [ArgStr n] <> "Journey_Initialization"
        /\ sprintf "Step_%s" [ArgStr n] <> "Journey_Complete").
Proof.
  split; [|split; [|split; [|split]]].
  - rewrite started_Action. unfold step_names, step_transaction.
    repeat (constructor; [cbn; intuition discriminate|]).
    constructor.
  - apply started_Action.
  - unfold step_names.
    repeat (constructor; [cbn; intuition discriminate|]).
    constructor.
  - intros n n'. rewrite !sprintf_transaction. apply step_transaction_inj.
  - intros n. rewrite sprintf_transaction. unfold step_transaction.
    split; discriminate.
Qed.

Lemma summary_of_Action (w : world) (s : state) :
  filter is_summary (trace_of Action w s) = [summary_request w (st_globals s)].
Proof.
  rewrite trace_of_Action, !filter_app, run_steps_no_summary.
  reflexivity.
Qed.

(** C2. Whatever the requests return and whatever [rand] draws, that is
    however many steps fail, [Action] runs to its end and returns 0, and
    the summary request to [/api/journey-complete], inside the
    [Journey_Complete] transaction, is the last thing of the run and
    occurs exactly once in it. *)
Theorem summary_event_sent_once (w : world) (s : state) :
  value_of Action w s = 0
  /\ List.length (filter is_summary (trace_of Action w s)) = 1%nat
  /\ exists before : list event,
       trace_of Action w s
       = (before
          ++ [ StartTransaction "Journey_Complete";
               AddHeader "X-dynaTrace"
                 (dynatrace_value (vuser_id w) (session_id w)
                    "Journey_Complete"
                    (LSN (st_globals s)) (LTN (st_globals s)));
               summary_request w (st_globals s);
               EndTransaction "Journey_Complete" LR_PASS ])%list
       /\ filter is_summary before = []
       /\ List.length (step_results before) = 6%nat.
Proof.
  split; [apply value_of_Action|].
  split; [now rewrite summary_of_Action|].
  exists (journey_initialization_events w (st_globals s)
          ++ trace_of (run_steps defined_steps) w
               (journey_initialization_state w s))%list.
  split; [|split].
  - rewrite trace_of_Action, <- app_assoc. reflexivity.
  - rewrite filter_app, run_steps_no_summary. reflexivity.
  - rewrite step_results_app, run_steps_results.
    cbn [journey_initialization_events step_results app].
    replace (step_of_transaction "Journey_Initialization") with (@None string)
      by reflexivity.
    cbn [app].
    rewrite length_combine, run_steps_length. reflexivity.
Qed.

(** The run in which every request fails in transport and every step is
    failed by the simulation still ends with the summary request. *)
Example all_steps_fail_summary_sent :
  step_results (trace_of Action world_unlucky initial_state)
  = [ ("ProductDiscovery", LR_FAIL); ("CartManagement", LR_FAIL);
      ("CheckoutProcess", LR_FAIL); ("OrderConfirmation", LR_FAIL);
      ("FulfillmentProcessing", LR_FAIL); ("DeliveryTracking", LR_FAIL) ]
  /\ List.length (filter is_summary (trace_of Action world_unlucky initial_state))
     = 1%nat.
Proof. split; vm_compute; reflexivity. Qed.

(** C6. The summary event is the request [Journey_Summary] with method
    POST and URL [{base_url}/api/journey-complete]; the body it names is
    the JSON object with the eight members eventType, companyName,
    testName, scriptName, vuserId, sessionId, timestamp and totalSteps,
    in that order and no other, and totalSteps is 6, the value of
    [journey_steps] and the number of steps the run executed. *)
Theorem summary_event_content (w : world) (s : state) :
  let g := st_globals s in
  let fields := summary_fields (vuser_id w) (session_id w) (LSN g) (LTN g) in
  filter is_summary (trace_of Action w s)
  = [ CustomRequest "Journey_Summary"
        [ "URL={base_url}/api/journey-complete"; "Method=POST";
          "Resource=0"; "RecContentType=application/json";
          "Body={request_body}" ]
        [ ("base_url", base_url g);
          ("request_body", json_object fields) ] ]
  /\ json_object fields
     = sprintf summary_format
         [ArgStr (LTN g); ArgStr (LSN g); ArgInt (vuser_id w);
          ArgStr (session_id w)]
  /\ map fst fields
     = [ "eventType"; "companyName"; "testName"; "scriptName"; "vuserId";
         "sessionId"; "timestamp"; "totalSteps" ]
  /\ In ("totalSteps", "6") fields
  /\ string_of_int (journey_steps initial_globals) = "6"
  /\ string_of_int (Z.of_nat (List.length (step_results (trace_of Action w s))))
     = "6".
Proof.
  cbv zeta.
  split; [apply summary_of_Action|].
  split; [symmetry; apply summary_body|].
  split; [reflexivity|].
  split; [cbn; tauto|].
  split; [reflexivity|].
  rewrite step_results_Action, length_combine, run_steps_length.
  reflexivity.
Qed.

(** ** The outcome of a step *)

Lemma outcome_without_simulation (w : world) (s : state) :
  error_simulation (st_globals s) = 0 -> outcome w s = LR_PASS.
Proof. intros H. unfold outcome, injects, fails_on. now rewrite H. Qed.

Lemma run_steps_without_simulation l w s :
  error_simulation (st_globals s) = 0 ->
  value_of (run_steps l) w s = repeat LR_PASS (List.length l).
Proof.
  revert s. induction l as [|d l IH]; intros s H; [reflexivity|].
  rewrite value_of_run_steps_cons, outcome_without_simulation by exact H.
  rewrite IH by exact H. reflexivity.
Qed.

(** C3, as the specification states it, fails: with the error simulation
    off, a step whose request fails in transport is still marked passed. *)
Lemma transport_failure_step_marked_passed :
  error_simulation (st_globals state_without_simulation) = 0
  /\ sent (trace_of
             (execute_journey_step "ProductDiscovery" "/api/process" "POST"
                body_ProductDiscovery 13)
             world_down state_without_simulation)
     = [ step_request "ProductDiscovery" "http://localhost:8080/api/process"
           body_ProductDiscovery ]
  /\ request_status world_down (requests state_without_simulation) = LR_FAIL
  /\ value_of
       (execute_journey_step "ProductDiscovery" "/api/process" "POST"
          body_ProductDiscovery 13)
       world_down state_without_simulation
     = LR_PASS
  /\ ended (trace_of
              (execute_journey_step "ProductDiscovery" "/api/process" "POST"
                 body_ProductDiscovery 13)
              world_down state_without_simulation)
     = [("Step_ProductDiscovery", LR_PASS)]
  /\ ~ reflects_transport_outcome world_down state_without_simulation
        "ProductDiscovery" "/api/process" "POST" body_ProductDiscovery 13.
Proof.
  repeat split; try (vm_compute; reflexivity).
  unfold reflects_transport_outcome. vm_compute. discriminate.
Qed.

(** C3, amended. With the error simulation off, a step is marked passed
    whatever its request returns, the status of the request not being
    consulted, and no value of [rand] is drawn; a failed request does not
    stop the runner, which goes on with the next step: all six steps of
    [Action] run and all are marked passed. *)
Theorem step_passes_without_simulation (w : world) (s : state) :
  error_simulation (st_globals s) = 0 ->
  (forall (n e m b : string) (d : Z),
     value_of (execute_journey_step n e m b d) w s = LR_PASS
     /\ ended (trace_of (execute_journey_step n e m b d) w s)
        = [(step_transaction n, LR_PASS)]
     /\ rand_calls (state_after (execute_journey_step n e m b d) w s)
        = rand_calls s)
  /\ step_results (trace_of Action w s)
     = [ ("ProductDiscovery", LR_PASS); ("CartManagement", LR_PASS);
         ("CheckoutProcess", LR_PASS); ("OrderConfirmation", LR_PASS);
         ("FulfillmentProcessing", LR_PASS); ("DeliveryTracking", LR_PASS) ].
Proof.
  intros H. split.
  - intros n e m b d.
    rewrite value_of_step, trace_of_step, state_after_step, ended_step.
    rewrite outcome_without_simulation by exact H.
    repeat split. cbn [step_state rand_calls]. now rewrite H.
  - rewrite step_results_Action, run_steps_without_simulation by exact H.
    reflexivity.
Qed.

Lemma step_passes_without_simulation_witness :
  error_simulation (st_globals state_without_simulation) = 0
  /\ step_results (trace_of Action world_down state_without_simulation)
     = [ ("ProductDiscovery", LR_PASS); ("CartManagement", LR_PASS);
         ("CheckoutProcess", LR_PASS); ("OrderConfirmation", LR_PASS);
         ("FulfillmentProcessing", LR_PASS); ("DeliveryTracking", LR_PASS) ].
Proof.
  split; [reflexivity|].
  apply (step_passes_without_simulation world_down state_without_simulation).
  reflexivity.
Defined.

(** ** The error simulation *)

Lemma int_rem_block (k i : nat) :
  (i < 100)%nat -> int_rem (100 * Z.of_nat k + Z.of_nat i) 100 = Z.of_nat i.
Proof.
  intros H. unfold int_rem.
  rewrite Z.rem_mod_nonneg by lia.
  symmetry. apply (Z.mod_unique _ _ (Z.of_nat k)); lia.
Qed.

Lemma failures_in_block (k : nat) :
  List.length (filter fails_on (rand_block k)) = 5%nat.
Proof.
  unfold rand_block.
  rewrite filter_map_swap, length_map.
  rewrite (filter_ext_in _ (fun i => Z.of_nat i <? 5)).
  - reflexivity.
  - intros i Hi. apply in_seq in Hi. unfold fails_on.
    now rewrite int_rem_block by lia.
Qed.

(** C4. With the error simulation on, a step is marked failed exactly
    when the value drawn from [rand] is below 5 modulo 100, and marked
    passed otherwise; the status of the request plays no part, so the
    same draw gives the same mark in any world.  Of each hundred
    consecutive values [100 k .. 100 k + 99] of [rand], five fail the
    step: 5%. *)
Theorem simulated_failure_rule (w : world) (s : state)
    (n e m b : string) (d : Z) :
  error_simulation (st_globals s) <> 0 ->
  let r := rand_value w (rand_calls s) in
  let result := value_of (execute_journey_step n e m b d) w s in
  (result = LR_FAIL <-> int_rem r 100 < 5)
  /\ (result = LR_PASS <-> ~ int_rem r 100 < 5)
  /\ ended (trace_of (execute_journey_step n e m b d) w s)
     = [(step_transaction n, result)]
  /\ (forall w' : world,
        rand_value w' = rand_value w ->
        value_of (execute_journey_step n e m b d) w' s = result)
  /\ (forall k : nat, List.length (filter fails_on (rand_block k)) = 5%nat).
Proof.
  intros H r result. subst r result.
  rewrite value_of_step, trace_of_step, ended_step.
  unfold outcome, injects, fails_on.
  apply Z.eqb_neq in H. rewrite H. cbn [negb andb].
  split; [|split; [|split; [|split]]].
  - destruct (Z.ltb_spec (int_rem (rand_value w (rand_calls s)) 100) 5);
      split; intros; try discriminate; try reflexivity; lia.
  - destruct (Z.ltb_spec (int_rem (rand_value w (rand_calls s)) 100) 5);
      split; intros; try discriminate; try reflexivity; lia.
  - reflexivity.
  - intros w' Hw. rewrite value_of_step. unfold outcome, injects, fails_on.
    now rewrite H, Hw.
  - apply failures_in_block.
Qed.

Lemma simulated_failure_rule_witness :
  error_simulation (st_globals initial_state) <> 0
  /\ (value_of
        (execute_journey_step "ProductDiscovery" "/api/process" "POST"
           body_ProductDiscovery 13)
        world_unlucky initial_state
      = LR_FAIL
      <-> int_rem (rand_value world_unlucky (rand_calls initial_state)) 100 < 5).
Proof.
  split; [simpl; lia|].
  apply (simulated_failure_rule world_unlucky initial_state
           "ProductDiscovery" "/api/process" "POST" body_ProductDiscovery 13).
  simpl; lia.
Defined.

(** ** Requests and headers *)

Lemma run_steps_sent l w s :
  sent (trace_of (run_steps l) w s)
  = flat_map
      (fun d =>
         if String.eqb (sd_method d) "POST"
         then [step_request (sd_name d)
                 (base_url (st_globals s) ++ sd_endpoint d) (sd_body d)]
         else [])
      l.
Proof.
  revert s. induction l as [|d l IH]; intros s; [reflexivity|].
  rewrite trace_of_run_steps_cons, sent_app, sent_step, IH.
  reflexivity.
Qed.

(** C5, as the specification states it, fails: the header a step
    registers for its request is named [X-dynaTrace], not [X-Correlation],
    and its value is laid out as [VU: ..; SI: ..; TSN: ..; LSN: ..; LTN: ..],
    not as [VU=..; Session=..; Step=..; Script=..; Test=..]. *)
Lemma step_header_is_not_x_correlation :
  headers (trace_of
             (execute_journey_step "ProductDiscovery" "/api/process" "POST"
                body_ProductDiscovery 13)
             world_down initial_state)
  = [ ("X-dynaTrace",
       "VU: 7; SI: sess-1; TSN: ProductDiscovery; LSN: BizObs_Next_Retail_Journey; LTN: Next_Performance_Test_20251127");
      ("X-LoadRunner-Step", "ProductDiscovery") ]
  /\ spec_correlation_value 7 "sess-1" "ProductDiscovery"
       "BizObs_Next_Retail_Journey" "Next_Performance_Test_20251127"
     = "VU=7; Session=sess-1; Step=ProductDiscovery; Script=BizObs_Next_Retail_Journey; Test=Next_Performance_Test_20251127"
  /\ ~ carries_spec_correlation world_down initial_state "ProductDiscovery"
        (trace_of
           (execute_journey_step "ProductDiscovery" "/api/process" "POST"
              body_ProductDiscovery 13)
           world_down initial_state).
Proof.
  split; [vm_compute; reflexivity|].
  split; [vm_compute; reflexivity|].
  unfold carries_spec_correlation. vm_compute.
  intros [H|[H|[]]]; discriminate H.
Qed.

(** C5, amended. A step called with method POST starts its transaction,
    registers the header [X-dynaTrace] with the value
    [VU: <vuser id>; SI: <session id>; TSN: <step name>; LSN: <LSN>; LTN: <LTN>]
    and the header [X-LoadRunner-Step] with the step name, and then
    issues one request, named after the step, with method POST and the
    URL placeholder [{full_url}], the buffer [full_url] holding
    [base_url] followed by the endpoint; it sends nothing else.  The
    requests of [Action] are those of the six steps, each to [base_url]
    followed by [/api/process], and the summary request. *)
Theorem step_request_and_headers (w : world) (s : state)
    (n e b : string) (d : Z) :
  let g := st_globals s in
  (exists rest : list event,
     trace_of (execute_journey_step n e "POST" b d) w s
     = ([ StartTransaction (step_transaction n);
          AddHeader "X-dynaTrace"
            (dynatrace_value (vuser_id w) (session_id w) n (LSN g) (LTN g));
          AddHeader "X-LoadRunner-Step" n;
          CustomRequest n
            [ "URL={full_url}"; "Method=POST"; "Resource=0";
              "RecContentType=application/json"; "Body={body}" ]
            [ ("full_url", (base_url g ++ e)%string); ("body", b) ] ]
        ++ rest)%list
     /\ sent rest = []
     /\ headers rest = [])
  /\ sprintf "VU: %d; SI: %s; TSN: %s; LSN: %s; LTN: %s"
       [ArgInt (vuser_id w); ArgStr (session_id w); ArgStr n;
        ArgStr (LSN g); ArgStr (LTN g)]
     = dynatrace_value (vuser_id w) (session_id w) n (LSN g) (LTN g)
  /\ sent (trace_of Action w s)
     = (map
          (fun d =>
             step_request (sd_name d) (base_url g ++ "/api/process")%string
               (sd_body d))
          defined_steps
        ++ [summary_request w g])%list.
Proof.
  cbv zeta. split; [|split].
  - exists (ThinkTime (int_mul d 1000) :: decision_phase w s n).
    rewrite trace_of_step.
    split; [reflexivity|].
    unfold decision_phase, injects, fails_on.
    destruct (error_simulation (st_globals s) =? 0); cbn [negb andb];
      try destruct (int_rem (rand_value w (rand_calls s)) 100 <? 5);
      split; reflexivity.
  - apply sprintf_step_header.
  - rewrite trace_of_Action, !sent_app, run_steps_sent. reflexivity.
Qed.

(** ** Time *)

Lemma int_mul_1000 (d : Z) :
  0 <= d /\ d * 1000 <= int_max -> int_mul d 1000 = d * 1000.
Proof.
  unfold int_mul, int_wrap, int_max.
  change (2 ^ 31) with 2147483648. change (2 ^ 32) with 4294967296.
  intros H. rewrite Z.mod_small; lia.
Qed.

Lemma steps_latency_nonneg (w : world) (l : list step_definition) (k : nat) :
  0 <= steps_latency w k l.
Proof.
  revert k. induction l as [|d l IH]; intros k; simpl; [lia|].
  destruct (String.eqb (sd_method d) "POST").
  - specialize (IH (S k)). lia.
  - apply IH.
Qed.

Lemma run_steps_clock l w s :
  Forall fits_think_time l ->
  clock (state_after (run_steps l) w s)
  = clock s + 1000 * total_duration l + steps_latency w (requests s) l.
Proof.
  intros H. revert s. induction H as [|d l Hd Hl IH]; intros s.
  - cbn. lia.
  - rewrite state_after_run_steps_cons, IH.
    cbn [step_state clock requests total_duration fold_right steps_latency].
    fold (total_duration l).
    rewrite int_mul_1000 by exact Hd.
    destruct (String.eqb (sd_method d) "POST"); lia.
Qed.

Lemma think_times_Action (w : world) (s : state) :
  think_times (trace_of Action w s) = [13000; 8000; 19000; 12000; 21000; 8000].
Proof.
  rewrite trace_of_Action, !think_times_app, run_steps_think_times.
  reflexivity.
Qed.

(** C7. A step whose duration times 1000 is an [int] waits, by
    [lr_think_time], its duration times 1000, that is its duration in
    seconds counted in milliseconds: the wait comes after the request of
    the step, if it sends one, and before the end of its transaction.
    The time a table of such steps takes is 1000 times the sum of their
    durations plus the time their requests take, hence at least the
    former: 3000, three seconds, for steps of one and two seconds. *)
Theorem steps_wait_their_duration (w : world) (s : state)
    (l : list step_definition) :
  Forall fits_think_time l ->
  think_times (trace_of (run_steps l) w s)
  = map (fun d => sd_duration d * 1000) l
  /\ clock (state_after (run_steps l) w s)
     = clock s + 1000 * total_duration l + steps_latency w (requests s) l
  /\ clock (state_after (run_steps l) w s) - clock s
     >= 1000 * total_duration l
  /\ (forall (d : step_definition) (s' : state),
        In d l ->
        let step :=
          execute_journey_step (sd_name d) (sd_endpoint d) (sd_method d)
            (sd_body d) (sd_duration d) in
        exists before after : list event,
          trace_of step w s'
          = (before ++ ThinkTime (sd_duration d * 1000) :: after)%list
          /\ sent before = sent (trace_of step w s')
          /\ ended before = []
          /\ think_times before = []
          /\ sent after = []
          /\ think_times after = []
          /\ ended after = [(step_transaction (sd_name d), value_of step w s')]).
Proof.
  intros H. split; [|split; [|split]].
  - rewrite run_steps_think_times. apply map_ext_in. intros d Hd.
    apply int_mul_1000. rewrite Forall_forall in H. now apply H.
  - now apply run_steps_clock.
  - rewrite run_steps_clock by exact H.
    pose proof (steps_latency_nonneg w l (requests s)). lia.
  - intros d s' Hd step. subst step.
    rewrite Forall_forall in H. specialize (H d Hd).
    rewrite trace_of_step, value_of_step.
    exists ([ StartTransaction (step_transaction (sd_name d));
              AddHeader "X-dynaTrace"
                (dynatrace_value (vuser_id w) (session_id w) (sd_name d)
                   (LSN (st_globals s')) (LTN (st_globals s')));
              AddHeader "X-LoadRunner-Step" (sd_name d) ]
            ++ (if String.eqb (sd_method d) "POST"
                then [step_request (sd_name d)
                        (base_url (st_globals s') ++ sd_endpoint d)%string
                        (sd_body d)]
                else []))%list,
      (decision_phase w s' (sd_name d)).
    unfold request_phase, decision_phase, outcome, injects, fails_on.
    rewrite int_mul_1000 by exact H.
    destruct (String.eqb (sd_method d) "POST");
      destruct (error_simulation (st_globals s') =? 0);
      cbn [negb andb];
      try destruct (int_rem (rand_value w (rand_calls s')) 100 <? 5);
      repeat split.
Qed.

Lemma steps_wait_their_duration_witness :
  Forall fits_think_time steps_A_B
  /\ clock (state_after (run_steps steps_A_B) world_down initial_state)
     - clock initial_state
     >= 3000.
Proof.
  assert (H : Forall fits_think_time steps_A_B).
  { repeat constructor; unfold fits_think_time, int_max; simpl; lia. }
  split; [exact H|].
  apply (steps_wait_their_duration world_down initial_state steps_A_B H).
Defined.

(** ** The method of a step *)

(** C9. A step sends its request only when its method is the string
    POST.  With any other method it sends none, and does everything
    else as with POST: its trace is the trace of the same call with POST
    less the request, so the transaction is started, the wait is made,
    the transaction is ended, and the status returned is the same. *)
Theorem request_only_for_post (w : world) (s : state)
    (n e m b : string) (d : Z) :
  m <> "POST" ->
  let other := execute_journey_step n e m b d in
  let post := execute_journey_step n e "POST" b d in
  sent (trace_of other w s) = []
  /\ sent (trace_of post w s)
     = [step_request n (base_url (st_globals s) ++ e) b]
  /\ trace_of other w s
     = filter (fun ev => negb (is_request ev)) (trace_of post w s)
  /\ value_of other w s = value_of post w s
  /\ started (trace_of other w s) = [step_transaction n]
  /\ think_times (trace_of other w s) = [int_mul d 1000]
  /\ ended (trace_of other w s) = [(step_transaction n, value_of other w s)]
  /\ requests (state_after other w s) = requests s.
Proof.
  intros H other post. subst other post.
  apply String.eqb_neq in H.
  rewrite !trace_of_step, !value_of_step, !sent_step, state_after_step,
    started_step, think_times_step, ended_step.
  cbn [step_state requests]. rewrite H.
  repeat split.
  unfold request_phase, decision_phase, outcome, injects, fails_on. rewrite H.
  destruct (error_simulation (st_globals s) =? 0); cbn [negb andb];
    try destruct (int_rem (rand_value w (rand_calls s)) 100 <? 5);
    reflexivity.
Qed.

Lemma request_only_for_post_witness :
  "GET" <> "POST"
  /\ sent (trace_of
             (execute_journey_step "ProductDiscovery" "/api/process" "GET"
                body_ProductDiscovery 13)
             world_unlucky initial_state)
     = [].
Proof.
  split; [apply String.eqb_neq; reflexivity|].
  apply (request_only_for_post world_unlucky initial_state
           "ProductDiscovery" "/api/process" "GET" body_ProductDiscovery 13).
  apply String.eqb_neq; reflexivity.
Defined.

(** ** The wait and the decision *)

(** C10. In every step the whole wait comes before the error simulation
    decides: what precedes the wait holds the request, if the step sends
    one, and no draw of [rand], no end of transaction and no error
    message; what follows the wait is only the decision.  The events up
    to and including the wait and the time the step takes are the same
    whether the simulation fails the step or not, so a step it marks
    failed has sent its request and waited its whole duration. *)
Theorem wait_precedes_decision (w : world) (s : state)
    (n e m b : string) (d : Z) :
  let step := execute_journey_step n e m b d in
  exists before after : list event,
    trace_of step w s = (before ++ ThinkTime (int_mul d 1000) :: after)%list
    /\ forallb (fun ev => negb (is_decision ev)) before = true
    /\ forallb is_decision after = true
    /\ sent before
       = (if String.eqb m "POST"
          then [step_request n (base_url (st_globals s) ++ e)%string b]
          else [])
    /\ (forall w' : world,
          vuser_id w' = vuser_id w ->
          session_id w' = session_id w ->
          exists after' : list event,
            trace_of step w' s
            = (before ++ ThinkTime (int_mul d 1000) :: after')%list)
    /\ (value_of step w s = LR_FAIL ->
        after
        = [ Rand (rand_value w (rand_calls s));
            EndTransaction (step_transaction n) LR_FAIL;
            ErrorMessage ("Simulated error in step: " ++ n) ])
    /\ clock (state_after step w s)
       = (if String.eqb m "POST"
          then clock s + Z.of_N (request_latency w (requests s))
          else clock s)
         + int_mul d 1000.
Proof.
  cbv zeta.
  exists ([ StartTransaction (step_transaction n);
            AddHeader "X-dynaTrace"
              (dynatrace_value (vuser_id w) (session_id w) n
                 (LSN (st_globals s)) (LTN (st_globals s)));
            AddHeader "X-LoadRunner-Step" n ]
          ++ (if String.eqb m "POST"
              then [step_request n (base_url (st_globals s) ++ e)%string b]
              else []))%list,
    (decision_phase w s n).
  rewrite trace_of_step, value_of_step, state_after_step.
  split; [|split; [|split; [|split; [|split; [|split]]]]].
  - unfold request_phase. now rewrite <- !app_assoc.
  - now destruct (String.eqb m "POST").
  - unfold decision_phase.
    destruct (error_simulation (st_globals s) =? 0); destruct (injects w s);
      reflexivity.
  - now destruct (String.eqb m "POST").
  - intros w' Hv Hs. exists (decision_phase w' s n).
    rewrite trace_of_step. unfold request_phase.
    now rewrite Hv, Hs, <- !app_assoc.
  - unfold outcome, decision_phase, injects, fails_on.
    destruct (error_simulation (st_globals s) =? 0); cbn [negb andb].
    + discriminate.
    + destruct (int_rem (rand_value w (rand_calls s)) 100 <? 5);
        [reflexivity | discriminate].
  - reflexivity.
Qed.

(** * Further properties of the script *)

(** ** The state a run leaves *)

Lemma run_steps_requests l w s :
  requests (state_after (run_steps l) w s)
  = (requests s
     + List.length
         (filter (fun d => String.eqb (sd_method d) "POST") l))%nat.
Proof.
  revert s. induction l as [|d l IH]; intros s.
  - cbn. now rewrite Nat.add_0_r.
  - rewrite state_after_run_steps_cons, IH.
    cbn [step_state requests filter].
    destruct (String.eqb (sd_method d) "POST"); cbn [List.length]; lia.
Qed.

Lemma run_steps_rand_calls l w s :
  rand_calls (state_after (run_steps l) w s)
  = (rand_calls s
     + (if (error_simulation (st_globals s) =? 0)%Z then 0 else List.length l))%nat.
Proof.
  revert s. induction l as [|d l IH]; intros s.
  - cbn. destruct (error_simulation (st_globals s) =? 0); lia.
  - rewrite state_after_run_steps_cons, IH.
    cbn [step_state rand_calls st_globals set_dt_header error_simulation].
    destruct (error_simulation (st_globals s) =? 0); cbn [List.length]; lia.
Qed.

Lemma run_steps_unread_globals l w s :
  TSN (st_globals (state_after (run_steps l) w s)) = TSN (st_globals s)
  /\ journey_steps (st_globals (state_after (run_steps l) w s))
     = journey_steps (st_globals s)
  /\ think_time_ms (st_globals (state_after (run_steps l) w s))
     = think_time_ms (st_globals s).
Proof.
  revert s. induction l as [|d l IH]; intros s.
  - repeat split.
  - rewrite state_after_run_steps_cons.
    destruct (IH (step_state w s (sd_name d) (sd_method d) (sd_duration d)))
      as (H1 & H2 & H3).
    repeat split; simpl in *; assumption.
Qed.

Lemma state_after_Action (w : world) (s : state) :
  state_after Action w s
  = journey_complete_state w
      (state_after (run_steps defined_steps) w
         (journey_initialization_state w s)).
Proof. unfold state_after at 1. now rewrite Action_run. Qed.

(** X1. A run of [Action] leaves every global but [dt_header] as it
    found it; [dt_header] ends as the header of the Journey_Complete
    transaction.  The run consumes seven request outcomes, and six
    values of [rand] when [error_simulation] is non-zero, none when it
    is zero. *)
Theorem Action_state_effect (w : world) (s : state) :
  let g := st_globals s in
  let g' := st_globals (state_after Action w s) in
  LSN g' = LSN g /\ LTN g' = LTN g /\ TSN g' = TSN g
  /\ company_name g' = company_name g /\ base_url g' = base_url g
  /\ journey_steps g' = journey_steps g
  /\ think_time_ms g' = think_time_ms g
  /\ error_simulation g' = error_simulation g
  /\ dt_header g'
     = dynatrace_value (vuser_id w) (session_id w) "Journey_Complete"
         (LSN g) (LTN g)
  /\ requests (state_after Action w s) = (requests s + 7)%nat
  /\ rand_calls (state_after Action w s)
     = (rand_calls s + (if (error_simulation g =? 0)%Z then 0 else 6))%nat.
Proof.
  cbv zeta. rewrite state_after_Action.
  destruct (run_steps_configuration defined_steps w
              (journey_initialization_state w s)) as (C1 & C2 & C3 & C4 & C5).
  destruct (run_steps_unread_globals defined_steps w
              (journey_initialization_state w s)) as (U1 & U2 & U3).
  pose proof (run_steps_requests defined_steps w
                (journey_initialization_state w s)) as R.
  pose proof (run_steps_rand_calls defined_steps w
                (journey_initialization_state w s)) as D.
  cbn [journey_complete_state st_globals set_dt_header LSN LTN TSN
       company_name base_url journey_steps think_time_ms error_simulation
       dt_header requests rand_calls].
  rewrite C1, C2, C3, C4, C5, U1, U2, U3, R, D.
  cbn [journey_initialization_state with_dt_header st_globals set_dt_header
       LSN LTN TSN company_name base_url journey_steps think_time_ms
       error_simulation requests rand_calls].
  repeat split.
  all: try (cbn; lia).
  all: destruct (error_simulation (st_globals s) =? 0); cbn; lia.
Qed.

(** ** What a run depends on *)

Lemma same_inputs_outcome (w w' : world) (s s' : state) :
  same_inputs w w' s s' -> outcome w' s' = outcome w s.
Proof.
  intros (_ & _ & (_ & _ & _ & _ & E) & R).
  unfold outcome, injects. rewrite E.
  specialize (R 0%nat). rewrite !Nat.add_0_r in R. now rewrite R.
Qed.

Lemma same_inputs_step (w w' : world) (s s' : state) (n m : string) (d : Z) :
  same_inputs w w' s s' ->
  same_inputs w w' (step_state w s n m d) (step_state w' s' n m d).
Proof.
  intros (V & I & (C1 & C2 & C3 & C4 & C5) & R).
  repeat split; try assumption.
  intros i. cbn [step_state rand_calls]. rewrite C5.
  destruct (error_simulation (st_globals s) =? 0); [apply R|].
  specialize (R (S i)). now rewrite !Nat.add_succ_comm.
Qed.

Lemma same_inputs_step_trace (w w' : world) (s s' : state)
    (n e m b : string) (d : Z) :
  same_inputs w w' s s' ->
  (request_phase w' s' n e m b d ++ decision_phase w' s' n)%list
  = (request_phase w s n e m b d ++ decision_phase w s n)%list.
Proof.
  intros H. pose proof (same_inputs_outcome w w' s s' H) as O.
  destruct H as (V & I & (C1 & C2 & C3 & C4 & C5) & R).
  specialize (R 0%nat). rewrite !Nat.add_0_r in R.
  unfold outcome in O.
  unfold request_phase, decision_phase.
  rewrite V, I, C1, C2, C4, C5, R.
  destruct (injects w' s'), (injects w s); try discriminate; reflexivity.
Qed.

Lemma same_inputs_run_steps l (w w' : world) (s s' : state) :
  same_inputs w w' s s' ->
  trace_of (run_steps l) w' s' = trace_of (run_steps l) w s
  /\ value_of (run_steps l) w' s' = value_of (run_steps l) w s
  /\ same_inputs w w' (state_after (run_steps l) w s)
       (state_after (run_steps l) w' s').
Proof.
  revert s s'. induction l as [|d l IH]; intros s s' H.
  - repeat split; try apply H.
  - rewrite !trace_of_run_steps_cons, !value_of_run_steps_cons,
      !state_after_run_steps_cons.
    destruct (IH _ _ (same_inputs_step w w' s s' (sd_name d) (sd_method d)
                        (sd_duration d) H)) as (T & V & S).
    rewrite T, V, (same_inputs_outcome w w' s s' H),
      (same_inputs_step_trace w w' s s' _ _ _ _ _ H).
    repeat split; apply S.
Qed.

Lemma same_inputs_initialization (w w' : world) (s s' : state) :
  same_inputs w w' s s' ->
  same_inputs w w' (journey_initialization_state w s)
    (journey_initialization_state w' s').
Proof.
  intros (V & I & (C1 & C2 & C3 & C4 & C5) & R).
  repeat split; assumption.
Qed.

Lemma same_inputs_Action (w w' : world) (s s' : state) :
  same_inputs w w' s s' ->
  trace_of Action w' s' = trace_of Action w s
  /\ value_of Action w' s' = value_of Action w s.
Proof.
  intros H. rewrite !trace_of_Action, !value_of_Action.
  destruct (same_inputs_run_steps defined_steps w w' _ _
              (same_inputs_initialization w w' s s' H)) as (T & _ & _).
  destruct H as (V & I & (C1 & C2 & C3 & C4 & C5) & R).
  rewrite T.
  unfold journey_initialization_events, journey_complete_events,
    summary_request.
  now rewrite V, I, C1, C2, C3, C4.
Qed.

(** X2. What a run of [Action] does depends only on the virtual-user
    id, the session id, the globals [LSN], [LTN], [company_name],
    [base_url] and [error_simulation], and the values [rand] yields from
    the current position on: two runs that agree on these have the same
    trace and the same return value, whatever their requests return or
    take, whatever [dt_header] held before, and whatever [TSN],
    [journey_steps] and [think_time_ms] are. *)
Theorem Action_depends_only_on_inputs (w w' : world) (s s' : state) :
  same_inputs w w' s s' ->
  trace_of Action w' s' = trace_of Action w s
  /\ value_of Action w' s' = value_of Action w s.
Proof. apply same_inputs_Action. Qed.

Lemma Action_depends_only_on_inputs_witness :
  same_inputs world_down world_up initial_state state_later
  /\ trace_of Action world_up state_later
     = trace_of Action world_down initial_state.
Proof.
  assert (H : same_inputs world_down world_up initial_state state_later).
  { repeat split. }
  split; [exact H|].
  apply (Action_depends_only_on_inputs world_down world_up initial_state
           state_later H).
Defined.

Lemma Action_configuration (w : world) (s : state) :
  same_configuration (st_globals s) (st_globals (state_after Action w s)).
Proof.
  rewrite state_after_Action.
  destruct (run_steps_configuration defined_steps w
              (journey_initialization_state w s)) as (C1 & C2 & C3 & C4 & C5).
  repeat split; cbn [journey_complete_state st_globals set_dt_header LSN LTN
                     company_name base_url error_simulation];
    assumption.
Qed.

Lemma Action_rand_calls (w : world) (s : state) :
  rand_calls (state_after Action w s)
  = (rand_calls s
     + (if (error_simulation (st_globals s) =? 0)%Z then 0 else 6))%nat.
Proof.
  rewrite state_after_Action.
  cbn [journey_complete_state rand_calls].
  now rewrite run_steps_rand_calls.
Qed.

(** X3. [Action] carries nothing from one iteration to the next but the
    position in the sequence of [rand]: run again from the state an
    iteration leaves, it does what a first iteration does in the world
    where [rand] has already yielded the values that iteration drew, six
    with the error simulation on and none with it off. *)
Theorem Action_iterations_independent (w : world) (s : state) :
  let drawn :=
    if error_simulation (st_globals s) =? 0 then 0%nat else 6%nat in
  trace_of Action w (state_after Action w s)
  = trace_of Action (shift_rand drawn w) s
  /\ value_of Action w (state_after Action w s) = value_of Action w s.
Proof.
  cbv zeta. split; [|now rewrite !value_of_Action].
  apply same_inputs_Action.
  repeat split; try apply Action_configuration.
  intros i. rewrite Action_rand_calls. cbn [shift_rand rand_value].
  f_equal. lia.
Qed.

(** ** One draw for each step *)

Lemma draw_results_S (w : world) (k n : nat) :
  draw_results w k (S n)
  = status_of_draw (rand_value w k) :: draw_results w (S k) n.
Proof.
  unfold draw_results. cbn [seq map]. rewrite Nat.add_0_r. f_equal.
  rewrite <- seq_shift, map_map. apply map_ext. intros i.
  now rewrite Nat.add_succ_comm.
Qed.

Lemma run_steps_draws l w s :
  error_simulation (st_globals s) <> 0 ->
  value_of (run_steps l) w s = draw_results w (rand_calls s) (List.length l).
Proof.
  revert s. induction l as [|d l IH]; intros s H; [reflexivity|].
  rewrite value_of_run_steps_cons. cbn [List.length].
  rewrite draw_results_S, IH by exact H.
  unfold outcome, injects, status_of_draw.
  cbn [step_state rand_calls].
  apply Z.eqb_neq in H. now rewrite H.
Qed.

(** X4. With the error simulation on, each step of [Action] is decided
    by a draw of its own: the result of the [i]-th step is the status of
    the [i]-th value [rand] yields from the start of the run on, failed
    when that value is below 5 modulo 100 and passed otherwise, whatever
    the other steps drew. *)
Theorem Action_results_by_draw (w : world) (s : state) :
  error_simulation (st_globals s) <> 0 ->
  step_results (trace_of Action w s)
  = combine step_names (draw_results w (rand_calls s) 6).
Proof.
  intros H. rewrite step_results_Action.
  now rewrite run_steps_draws by exact H.
Qed.

Lemma Action_results_by_draw_witness :
  error_simulation (st_globals initial_state) <> 0
  /\ step_results (trace_of Action world_unlucky initial_state)
     = combine step_names (draw_results world_unlucky 0 6).
Proof.
  split; [simpl; lia|].
  apply (Action_results_by_draw world_unlucky initial_state).
  simpl; lia.
Defined.

(** ** Transactions *)

Lemma well_bracketed_app (t u : list event) (open : option string) :
  well_bracketed open t = true ->
  well_bracketed open (t ++ u) = well_bracketed None u.
Proof.
  revert open. induction t as [|ev t IH]; intros open H.
  - destruct open; [discriminate | reflexivity].
  - destruct ev, open; cbn [well_bracketed app] in *;
      try discriminate; try (now apply IH).
    apply andb_true_iff in H. destruct H as [E H].
    rewrite E. cbn [andb]. now apply IH.
Qed.

Lemma well_bracketed_step w s n e m b d :
  well_bracketed None
    (request_phase w s n e m b d ++ decision_phase w s n)
  = true.
Proof.
  unfold request_phase, decision_phase, step_request.
  destruct (String.eqb m "POST");
    destruct (error_simulation (st_globals s) =? 0);
    destruct (injects w s);
    cbn [app well_bracketed]; now rewrite String.eqb_refl.
Qed.

Lemma well_bracketed_run_steps l w s :
  well_bracketed None (trace_of (run_steps l) w s) = true.
Proof.
  revert s. induction l as [|d l IH]; intros s; [reflexivity|].
  rewrite trace_of_run_steps_cons, well_bracketed_app.
  - apply IH.
  - apply well_bracketed_step.
Qed.

(** X5. The transactions of a run of [Action] are well bracketed,
    whatever fails: no transaction is started while another is open,
    each is ended once, under the name it was started with, and none is
    left open; every header, request and wait falls inside a
    transaction, and every error message after the transaction of its
    step has ended.  The same holds of any single call of
    [execute_journey_step]. *)
Theorem transactions_well_bracketed (w : world) (s : state) :
  well_bracketed None (trace_of Action w s) = true
  /\ (forall (n e m b : string) (d : Z),
        well_bracketed None (trace_of (execute_journey_step n e m b d) w s)
        = true).
Proof.
  split.
  - rewrite trace_of_Action.
    rewrite well_bracketed_app by reflexivity.
    rewrite well_bracketed_app by apply well_bracketed_run_steps.
    reflexivity.
  - intros n e m b d. rewrite trace_of_step. apply well_bracketed_step.
Qed.

(** ** Error messages *)

Lemma errors_app (t u : list event) :
  errors (t ++ u) = (errors t ++ errors u)%list.
Proof.
  induction t as [|e t IH]; [reflexivity|].
  destruct e; simpl; now rewrite IH.
Qed.

Lemma errors_step w s n e m b d :
  errors (request_phase w s n e m b d ++ decision_phase w s n)
  = if is_fail (outcome w s) then [simulated_error_message n] else [].
Proof.
  unfold request_phase, decision_phase, outcome, step_request,
    simulated_error_message.
  destruct (String.eqb m "POST");
    destruct (error_simulation (st_globals s) =? 0);
    destruct (injects w s); reflexivity.
Qed.

Lemma run_steps_errors l w s :
  errors (trace_of (run_steps l) w s)
  = map simulated_error_message
      (map fst
         (filter (fun r => is_fail (snd r))
            (combine (map sd_name l) (value_of (run_steps l) w s)))).
Proof.
  revert s. induction l as [|d l IH]; intros s; [reflexivity|].
  rewrite trace_of_run_steps_cons, value_of_run_steps_cons, errors_app,
    errors_step, IH.
  cbn [map combine filter snd].
  destruct (is_fail (outcome w s)); reflexivity.
Qed.

(** X6. A run of [Action] writes one error message for each step it
    marks failed and none for any other: the messages of the trace are
    [Simulated error in step: <name>] for the failed steps, in the order
    of the steps.  A single step writes its message exactly when it
    returns [LR_FAIL], and it never returns [LR_FAIL] when
    [error_simulation] is zero. *)
Theorem error_messages_name_failed_steps (w : world) (s : state) :
  errors (trace_of Action w s)
  = map simulated_error_message
      (map fst
         (filter (fun r => is_fail (snd r))
            (step_results (trace_of Action w s))))
  /\ (forall (n e m b : string) (d : Z),
        let step := execute_journey_step n e m b d in
        errors (trace_of step w s)
        = (if is_fail (value_of step w s)
           then ["Simulated error in step: " ++ n]
           else [])
        /\ (value_of step w s = LR_FAIL ->
            error_simulation (st_globals s) <> 0)).
Proof.
  split.
  - rewrite step_results_Action, trace_of_Action, !errors_app,
      run_steps_errors.
    cbn [journey_initialization_events journey_complete_events errors
         summary_request app].
    now rewrite app_nil_r.
  - intros n e m b d. cbv zeta.
    rewrite trace_of_step, value_of_step, errors_step.
    split; [reflexivity|].
    unfold outcome, injects. intros H E. rewrite E in H. discriminate.
Qed.

(** ** The time of a run *)

Lemma defined_steps_fit : Forall fits_think_time defined_steps.
Proof. repeat constructor; unfold fits_think_time, int_max; simpl; lia. Qed.

Lemma requests_latency_nonneg (w : world) (n k : nat) :
  0 <= requests_latency w k n.
Proof.
  revert k. induction n as [|n IH]; intros k; simpl; [lia|].
  specialize (IH (S k)). lia.
Qed.

(** X7. Whatever fails, a run of [Action] waits 81000 in all, 13000,
    8000, 19000, 12000, 21000 and 8000 for its six steps, and takes that
    plus the time of its seven requests, the six of the steps and the
    summary: failed steps are not cut short and nothing is retried. *)
Theorem Action_elapsed_time (w : world) (s : state) :
  think_times (trace_of Action w s) = [13000; 8000; 19000; 12000; 21000; 8000]
  /\ clock (state_after Action w s)
     = clock s + 81000 + requests_latency w (requests s) 7
  /\ clock (state_after Action w s) - clock s >= 81000.
Proof.
  assert (E : clock (state_after Action w s)
              = clock s + 81000 + requests_latency w (requests s) 7).
  { rewrite state_after_Action. cbn [journey_complete_state clock].
    rewrite run_steps_clock by apply defined_steps_fit.
    rewrite run_steps_requests.
    cbn [journey_initialization_state with_dt_header clock requests
         defined_steps filter sd_method String.eqb Ascii.eqb Bool.eqb
         List.length total_duration fold_right sd_duration steps_latency
         requests_latency].
    replace (requests s + 6)%nat
      with (S (S (S (S (S (S (requests s))))))) by lia.
    lia. }
  split; [apply think_times_Action|].
  split; [exact E|].
  rewrite E. pose proof (requests_latency_nonneg w 7 (requests s)). lia.
Qed.

(** ** The headers of a run *)

Lemma run_steps_headers l w s :
  headers (trace_of (run_steps l) w s)
  = flat_map (fun d => step_headers w (st_globals s) (sd_name d)) l.
Proof.
  revert s. induction l as [|d l IH]; intros s; [reflexivity|].
  rewrite trace_of_run_steps_cons, headers_app, IH.
  cbn [flat_map]. f_equal.
  unfold request_phase, decision_phase, step_request.
  destruct (String.eqb (sd_method d) "POST");
    destruct (error_simulation (st_globals s) =? 0);
    destruct (injects w s); reflexivity.
Qed.

(** X8. In a run of [Action] the header [X-LoadRunner-Company] is
    registered once, in the Journey_Initialization transaction, and by
    no step; [X-dynaTrace] is registered eight times, for Journey_Start,
    for each of the six steps under its own name, and for
    Journey_Complete; each step registers [X-LoadRunner-Step] with its
    name once. *)
Theorem Action_headers (w : world) (s : state) :
  let g := st_globals s in
  let tag tsn :=
    dynatrace_value (vuser_id w) (session_id w) tsn (LSN g) (LTN g) in
  headers (trace_of Action w s)
  = (("X-dynaTrace", tag "Journey_Start")
     :: ("X-LoadRunner-Company", company_name g)
     :: flat_map (fun n => [("X-dynaTrace", tag n); ("X-LoadRunner-Step", n)])
          step_names
     ++ [("X-dynaTrace", tag "Journey_Complete")])%list
  /\ header_values "X-LoadRunner-Company" (trace_of Action w s)
     = [company_name g]
  /\ header_values "X-LoadRunner-Step" (trace_of Action w s) = step_names
  /\ header_values "X-dynaTrace" (trace_of Action w s)
     = map tag
         ("Journey_Start" :: step_names ++ ["Journey_Complete"])%list.
Proof.
  cbv zeta.
  assert (E : headers (trace_of Action w s)
              = (("X-dynaTrace",
                  dynatrace_value (vuser_id w) (session_id w) "Journey_Start"
                    (LSN (st_globals s)) (LTN (st_globals s)))
                 :: ("X-LoadRunner-Company", company_name (st_globals s))
                 :: flat_map
                      (fun n =>
                         [("X-dynaTrace",
                           dynatrace_value (vuser_id w) (session_id w) n
                             (LSN (st_globals s)) (LTN (st_globals s)));
                          ("X-LoadRunner-Step", n)])
                      step_names
                 ++ [("X-dynaTrace",
                      dynatrace_value (vuser_id w) (session_id w)
                        "Journey_Complete"
                        (LSN (st_globals s)) (LTN (st_globals s)))])%list).
  { rewrite trace_of_Action, !headers_app, run_steps_headers. reflexivity. }
  unfold header_values. rewrite E.
  repeat split.
Qed.

(** ** The strings the script writes and the arrays it writes them to *)

Lemma length_append (a b : string) :
  String.length (a ++ b) = (String.length a + String.length b)%nat.
Proof. induction a as [|c a IH]; simpl; [reflexivity | now rewrite IH]. Qed.

Lemma length_string_of_uint (d : Decimal.uint) :
  String.length (NilEmpty.string_of_uint d) = Decimal.nb_digits d.
Proof. induction d; simpl; congruence. Qed.

Lemma usize_nb_digits (d : Decimal.uint) :
  DecimalPos.Unsigned.usize d = N.of_nat (Decimal.nb_digits d).
Proof.
  induction d; cbn [DecimalPos.Unsigned.usize Decimal.nb_digits];
    rewrite ?IHd, ?Nnat.Nat2N.inj_succ; reflexivity.
Qed.

Lemma unorm_to_uint (p : positive) :
  Decimal.unorm (Pos.to_uint p) = Pos.to_uint p.
Proof.
  rewrite <- DecimalPos.Unsigned.to_of, DecimalPos.Unsigned.of_to.
  reflexivity.
Qed.

(** A number written without leading zero is at least the power of ten
    of the number of its digits after the first. *)
Lemma of_uint_lower (d : Decimal.uint) :
  Decimal.unorm d = d -> d <> Decimal.zero ->
  (10 ^ DecimalPos.Unsigned.usize (uint_tail d) <= Pos.of_uint d)%N.
Proof.
  intros U Z.
  rewrite DecimalPos.Unsigned.of_uint_alt.
  destruct d as [|x|x|x|x|x|x|x|x|x|x]; cbn [uint_tail];
    try (unfold Decimal.rev; cbn [Decimal.revapp];
         rewrite DecimalPos.Unsigned.of_lu_revapp;
         cbn [DecimalPos.Unsigned.of_lu]; lia).
  - discriminate U.
  - exfalso. unfold Decimal.unorm in U. cbn [Decimal.nzhead] in U.
    pose proof (DecimalFacts.nb_digits_nzhead x) as L.
    destruct (Decimal.nzhead x) eqn:N;
      try (rewrite U in L; cbn [Decimal.nb_digits] in L; lia).
    injection U as <-. now apply Z.
Qed.

Lemma nb_digits_to_uint (p : positive) (k : nat) :
  (N.pos p < 10 ^ N.of_nat k)%N ->
  (Decimal.nb_digits (Pos.to_uint p) <= k)%nat.
Proof.
  intros H.
  pose proof (of_uint_lower (Pos.to_uint p) (unorm_to_uint p)
                (DecimalPos.Unsigned.to_uint_nonzero p)) as L.
  rewrite DecimalPos.Unsigned.of_to, usize_nb_digits in L.
  assert (B : (N.of_nat (Decimal.nb_digits (uint_tail (Pos.to_uint p)))
               < N.of_nat k)%N).
  { apply (N.pow_lt_mono_r_iff 10); lia. }
  pose proof (DecimalPos.Unsigned.to_uint_nonnil p) as NN.
  destruct (Pos.to_uint p); cbn [uint_tail Decimal.nb_digits] in *;
    try congruence; lia.
Qed.

Lemma string_of_uint_nonnil (d : Decimal.uint) :
  d <> Decimal.Nil ->
  NilZero.string_of_uint d = NilEmpty.string_of_uint d.
Proof. destruct d; [congruence | reflexivity ..]. Qed.

Lemma length_string_of_pos (p : positive) :
  (N.pos p < 10000000000)%N ->
  (String.length (NilZero.string_of_uint (Pos.to_uint p)) <= 10)%nat.
Proof.
  intros H.
  rewrite string_of_uint_nonnil by apply DecimalPos.Unsigned.to_uint_nonnil.
  rewrite length_string_of_uint.
  now apply nb_digits_to_uint.
Qed.

(** [%d] of an [int] takes at most eleven characters. *)
Lemma length_string_of_int (n : Z) :
  is_int n -> (String.length (string_of_int n) <= 11)%nat.
Proof.
  unfold is_int, int_min, int_max. change (2 ^ 31) with 2147483648.
  intros H. unfold string_of_int, NilZero.string_of_int, Z.to_int.
  destruct n as [|p|p].
  - cbn. lia.
  - pose proof (length_string_of_pos p). lia.
  - cbn [String.length]. pose proof (length_string_of_pos p). lia.
Qed.

Lemma length_dynatrace_value (vu : Z) (si tsn lsn ltn : string) :
  String.length (dynatrace_value vu si tsn lsn ltn)
  = (31 + String.length (string_of_int vu) + String.length si
     + String.length tsn + String.length lsn + String.length ltn)%nat.
Proof.
  unfold dynatrace_value.
  rewrite !length_append. cbn [String.length]. lia.
Qed.

Lemma length_summary_body (vu : Z) (si lsn ltn : string) :
  String.length (json_object (summary_fields vu si lsn ltn))
  = (171 + String.length (string_of_int vu) + String.length si
     + String.length lsn + String.length ltn)%nat.
Proof.
  unfold json_object, summary_fields, json_member, json_string.
  cbn [map String.concat fst snd].
  rewrite !length_append. cbn [String.length append].
  rewrite ?length_append. cbn [String.length].
  change (String.length (string_of_int 6)) with 1%nat. lia.
Qed.


Lemma fits_dynatrace_value (w : world) (g : globals) (tsn : string) :
  is_int (vuser_id w) -> globals_fit g ->
  (String.length (session_id w) + String.length tsn <= 471)%nat ->
  fits size_dt_header
    (dynatrace_value (vuser_id w) (session_id w) tsn (LSN g) (LTN g)).
Proof.
  intros I (F1 & F2 & _ & _) L.
  unfold fits, size_dt_header, size_LSN, size_LTN in *.
  rewrite length_dynatrace_value.
  pose proof (length_string_of_int (vuser_id w) I). lia.
Qed.



Lemma headers_of_Action (w : world) (s : state) :
  headers (trace_of Action w s)
  = (("X-dynaTrace",
      dynatrace_value (vuser_id w) (session_id w) "Journey_Start"
        (LSN (st_globals s)) (LTN (st_globals s)))
     :: ("X-LoadRunner-Company", company_name (st_globals s))
     :: flat_map (step_headers w (st_globals s)) step_names
     ++ [("X-dynaTrace",
          dynatrace_value (vuser_id w) (session_id w) "Journey_Complete"
            (LSN (st_globals s)) (LTN (st_globals s)))])%list.
Proof.
  rewrite trace_of_Action, !headers_app, run_steps_headers. reflexivity.
Qed.

Lemma sent_of_Action (w : world) (s : state) :
  sent (trace_of Action w s)
  = (map
       (fun d =>
          step_request (sd_name d)
            (base_url (st_globals s) ++ sd_endpoint d)%string (sd_body d))
       defined_steps
     ++ [summary_request w (st_globals s)])%list.
Proof.
  rewrite trace_of_Action, !sent_app, run_steps_sent. reflexivity.
Qed.

(** X10. A run of [Action] keeps within every array it writes to (the
    256 bytes of a transaction name, the 1024 of [dt_header], the 512 of
    [full_url], the 2048 of [request_body]) when the virtual-user id is
    an [int], the globals it reads fit their own arrays, and the session
    id has at most 450 characters; it leaves the globals fitting their
    arrays. *)
Theorem Action_buffers_fit (w : world) (s : state) :
  is_int (vuser_id w) ->
  globals_fit (st_globals s) ->
  (String.length (session_id w) <= 450)%nat ->
  Forall (fits size_transaction_name) (started (trace_of Action w s))
  /\ Forall (fits size_dt_header)
       (header_values "X-dynaTrace" (trace_of Action w s))
  /\ Forall (fits size_full_url)
       (buffer_contents "full_url" (trace_of Action w s))
  /\ Forall (fits size_request_body)
       (buffer_contents "request_body" (trace_of Action w s))
  /\ fits size_dt_header (dt_header (st_globals (state_after Action w s)))
  /\ globals_fit (st_globals (state_after Action w s)).
Proof.
  intros I G L.
  assert (H : forall tsn : string,
             (String.length tsn <= 21)%nat ->
             fits size_dt_header
               (dynatrace_value (vuser_id w) (session_id w) tsn
                  (LSN (st_globals s)) (LTN (st_globals s)))).
  { intros tsn Lt. apply fits_dynatrace_value; try assumption. lia. }
  unfold header_values, buffer_contents.
  rewrite started_Action, headers_of_Action, sent_of_Action.
  split; [|split; [|split; [|split; [|split]]]].
  - unfold step_names, step_transaction, fits, size_transaction_name.
    repeat (constructor; [cbn; lia|]). constructor.
  - cbn -[dynatrace_value].
    repeat (constructor; [apply H; cbn; lia|]). constructor.
  - destruct G as (_ & _ & _ & F4).
    unfold fits, size_full_url, size_base_url in *.
    cbn. repeat (constructor; [rewrite length_append; cbn; lia|]).
    constructor.
  - destruct G as (F1 & F2 & _ & _).
    unfold fits, size_request_body, size_LSN, size_LTN in *.
    cbn -[json_object summary_fields]. constructor; [|constructor].
    rewrite length_summary_body.
    pose proof (length_string_of_int (vuser_id w) I). lia.
  - rewrite state_after_Action.
    cbn [journey_complete_state st_globals set_dt_header dt_header].
    destruct (run_steps_configuration defined_steps w
                (journey_initialization_state w s)) as (C1 & C2 & _).
    rewrite C1, C2. apply H. cbn. lia.
  - destruct (Action_configuration w s) as (C1 & C2 & C3 & C4 & _).
    destruct G as (F1 & F2 & F3 & F4).
    unfold globals_fit. now rewrite C1, C2, C3, C4.
Qed.

Lemma Action_buffers_fit_witness :
  is_int (vuser_id world_long_session)
  /\ globals_fit (st_globals initial_state)
  /\ (String.length (session_id world_long_session) <= 450)%nat
  /\ Forall (fits size_request_body)
       (buffer_contents "request_body"
          (trace_of Action world_long_session initial_state)).
Proof.
  assert (I : is_int (vuser_id world_long_session)).
  { cbv [is_int vuser_id world_long_session int_min int_max]. lia. }
  assert (G : globals_fit (st_globals initial_state)).
  { unfold globals_fit, fits, size_LSN, size_LTN, size_company_name,
      size_base_url.
    simpl. lia. }
  assert (L : (String.length (session_id world_long_session) <= 450)%nat).
  { vm_compute. lia. }
  split; [exact I|]. split; [exact G|]. split; [exact L|].
  apply (Action_buffers_fit world_long_session initial_state I G L).
Defined.
